(** * Azure role-assignment validators: a shallow embedding

    The development follows the Go sources

    - [api/v1alpha1/azurevalidator_types.go]   (the rule schema),
    - [internal/validators/role_assignment.go] (the single-rule validator, in
      its current shape with an injected lookup-map provider, and in its
      earlier pager-based shape, kept here under [Module Legacy]),
    - [internal/validators/rbac.go]            (the multi-scope validator).

    Go maps are stdpp [gmap]s and nil-able pointers are [option]s.  A Go
    function that returns a result pointer and an error yields a [Returned]
    record: the result, the error if any, and the calls made on the way.
    Every call to an injected collaborator and every log line is recorded in
    a trace of [Event]s, so that statements such as "the lookup provider is
    not consulted" can be stated and proved.  Helpers and constants of other
    packages are the fields of the class [Externals]. *)

From stdpp Require Import base option list strings gmap fin_maps.

Set Default Proof Using "Type".

Local Open Scope string_scope.
Local Open Scope list_scope.

(** ** Errors *)

(** The two sentinel errors of [role_assignment.go], the malformed-data error
    of the earlier validator, errors produced by a collaborator, and
    [fmt.Errorf("...: %w", err)] wrapping. *)
Inductive error : Type :=
| errNoSuchBuiltInRole
| errNoRoleIdentifierSpecified
| errMalformedResponse
| errCollaborator (msg : string)
| errWrap (msg : string) (cause : error).

(** ** Rule schema (package v1alpha1) *)

Record Role : Type := mkRole {
  Name : option string;
  RoleName : option string
}.

Record RoleAssignmentRule : Type := mkRoleAssignmentRule {
  Roles : list Role;
  ServicePrincipalID : string;
  SubscriptionID : string
}.

(** [PermissionSet] and [RBACRule] as [rbac.go] uses them: [set.Role],
    [set.Scope], [rule.Permissions], [rule.SecurityPrincipalID]. *)
Record PermissionSet : Type := mkPermissionSet {
  SetRole : Role;
  Scope : string
}.

Record RBACRule : Type := mkRBACRule {
  Permissions : list PermissionSet;
  SecurityPrincipalID : string
}.

(** ** Grants (package armauthorization) *)

Record RoleAssignmentProperties : Type := mkProperties {
  RoleDefinitionID : option string
}.

(** The fetched slice holds pointers to grants; they are taken to be
    non-nil, as the code dereferences them without a check. *)
Record RoleAssignment : Type := mkRoleAssignment {
  Properties : option RoleAssignmentProperties
}.

(** ** Validation results (packages vapi, vapitypes, corev1) *)

Inductive ValidationState : Type :=
| ValidationSucceeded
| ValidationFailed.

Inductive ConditionStatus : Type :=
| ConditionTrue
| ConditionFalse
| ConditionUnknown.

Record ValidationCondition : Type := mkCondition {
  ValidationType : string;
  ValidationRule : string;
  Message : string;
  Details : list string;
  Failures : list string;
  Status : ConditionStatus;
  LastValidationTime : Z
}.

Record ValidationResult : Type := mkResult {
  Condition : ValidationCondition;
  State : ValidationState
}.

(** Modelled from the spec: [vapi.DefaultValidationCondition] belongs to the
    validator framework and is not part of these sources.  The spec describes
    the result as "built optimistically": no details, no failures, a true
    condition; the clock reading is the argument [now]. *)
Definition DefaultValidationCondition (now : Z) : ValidationCondition :=
  {| ValidationType := "";
     ValidationRule := "";
     Message := "";
     Details := [];
     Failures := [];
     Status := ConditionTrue;
     LastValidationTime := now |}.

(** ** Observable calls *)

Inductive Event : Type :=
| CallListRoleAssignmentsForSubscription (subscriptionID filter : string)
| CallListRoleAssignmentsForScope (scope filter : string)
| CallGetRoleLookupMap (subscriptionID : string)
| CallNewListForSubscriptionPager (filter : string)
| CallNextPage
| CallBuiltInRoleLookupMap (subscriptionID : string)
| LogError (err : error) (msg : string)
| LogInfo (msg : string) (key : string) (value : nat).

(** The calls that consult a role lookup table. *)
Definition isLookupCall (ev : Event) : bool :=
  match ev with
  | CallGetRoleLookupMap _ | CallBuiltInRoleLookupMap _ => true
  | _ => false
  end.

(** ** A traced error monad *)

(** A computation yields the calls it made, in order, and either the error it
    stopped with or its value. *)
Record Eff (A : Type) : Type := mkEff {
  trace : list Event;
  outcome : error + A
}.

Arguments mkEff {A} _ _.
Arguments trace {A} _.
Arguments outcome {A} _.

#[global] Instance Eff_ret : MRet Eff := λ A a, mkEff [] (inr a).

#[global] Instance Eff_bind : MBind Eff := λ A B k m,
  match outcome m with
  | inl e => mkEff (trace m) (inl e)
  | inr a => mkEff (trace m ++ trace (k a)) (outcome (k a))
  end.

Definition throw {A} (e : error) : Eff A := mkEff [] (inl e).

Definition emit (ev : Event) : Eff unit := mkEff [ev] (inr tt).

(** What a Go function returning a result pointer and an error hands back,
    together with the calls it made. *)
Record Returned (R : Type) : Type := mkReturned {
  calls : list Event;
  result : R;
  err : option error
}.

Arguments mkReturned {R} _ _ _.
Arguments calls {R} _.
Arguments result {R} _.
Arguments err {R} _.

(** ** Collaborators *)

(** The facade of [role_assignment.go]. *)
Record roleAssignmentAPI : Type := {
  ListRoleAssignmentsForSubscription :
    string -> string -> error + list RoleAssignment
}.

(** The facade of [rbac.go]. *)
Record roleAssignmentAPI2 : Type := {
  ListRoleAssignmentsForScope :
    string -> string -> error + list RoleAssignment
}.

Definition roleLookupMapProvider : Type :=
  string -> error + gmap string string.

Record RoleAssignmentRuleService : Type := NewRoleAssignmentRuleService {
  ra_api : roleAssignmentAPI;
  ra_getRoleLookupMap : roleLookupMapProvider
}.

Record RBACRuleService : Type := NewRBACRuleService {
  rbac_api : roleAssignmentAPI2;
  rbac_getRoleLookupMap : roleLookupMapProvider
}.

(** Constants and helpers of packages that are outside these sources:
    [vapiconstants.ValidationRulePrefix], the two validation types of
    [internal/constants], the clock reading taken by
    [DefaultValidationCondition], [url.QueryEscape], and
    [RoleNameFromRoleDefinitionID] and [RoleAssignmentScopeSubscription] of
    [internal/utils/azure]. *)
Class Externals : Type := {
  ValidationRulePrefix : string;
  ValidationTypeRoleAssignment : string;
  ValidationTypeRBAC : string;
  now : Z;
  QueryEscape : string -> string;
  RoleNameFromRoleDefinitionID : string -> string;
  RoleAssignmentScopeSubscription : string -> error + string
}.

(** [DefaultValidationCondition] reads the clock anew in every call, so the
    [now] of the externals is the reading of one call.  Another call has the
    same externals but for that reading. *)
Definition withClock `{!Externals} (clock : Z) : Externals := {|
  ValidationRulePrefix := ValidationRulePrefix;
  ValidationTypeRoleAssignment := ValidationTypeRoleAssignment;
  ValidationTypeRBAC := ValidationTypeRBAC;
  now := clock;
  QueryEscape := QueryEscape;
  RoleNameFromRoleDefinitionID := RoleNameFromRoleDefinitionID;
  RoleAssignmentScopeSubscription := RoleAssignmentScopeSubscription
|}.

(** A result with its [LastValidationTime] set to [clock] and every other
    field as it is. *)
Definition atTime (clock : Z) (vr : ValidationResult) : ValidationResult :=
  {| Condition :=
       {| ValidationType := ValidationType (Condition vr);
          ValidationRule := ValidationRule (Condition vr);
          Message := Message (Condition vr);
          Details := Details (Condition vr);
          Failures := Failures (Condition vr);
          Status := Status (Condition vr);
          LastValidationTime := clock |};
     State := State vr |}.

Section Validators.

Context `{!Externals}.

(** [url.QueryEscape(fmt.Sprintf("principalId eq '%s'", id))] *)
Definition principalFilter (principalID : string) : string :=
  QueryEscape ("principalId eq '" +:+ principalID +:+ "'").

(** The body of the loop over the fetched grants (role_assignment.go 59-63,
    rbac.go 97-101): a grant contributes its role name when both pointers
    are non-nil, and nothing otherwise. *)
Definition recordRoleName (found : gmap string bool) (ra : RoleAssignment)
  : gmap string bool :=
  match Properties ra with
  | Some props =>
      match RoleDefinitionID props with
      | Some id => <[RoleNameFromRoleDefinitionID id := true]> found
      | None => found
      end
  | None => found
  end.

Definition foundRoleNames (roleAssignments : list RoleAssignment)
  : gmap string bool :=
  fold_left recordRoleName roleAssignments ∅.

(** The write of lines 97-102 (rbac.go 64-69), seen through the pointers the
    result holds to [state] and [latestCondition]. *)
Definition markFailed (vr : ValidationResult) (message : string)
    (failures : list string) : ValidationResult :=
  {| Condition :=
       {| ValidationType := ValidationType (Condition vr);
          ValidationRule := ValidationRule (Condition vr);
          Message := message;
          Details := Details (Condition vr);
          Failures := failures;
          Status := ConditionFalse;
          LastValidationTime := LastValidationTime (Condition vr) |};
     State := ValidationFailed |}.

(** *** role_assignment.go, current validator *)

(** The loop over [rule.Roles] (lines 65-95); [failures] is the slice built
    so far. *)
Fixpoint reconcileRoles (s : RoleAssignmentRuleService)
    (rule : RoleAssignmentRule) (found : gmap string bool)
    (roles : list Role) (failures : list string) : Eff (list string) :=
  match roles with
  | [] => mret failures
  | role :: rest =>
      roleName ←
        match Name role with
        | Some name => mret name
        | None =>
            match RoleName role with
            | Some specifiedRoleName =>
                emit (CallGetRoleLookupMap (SubscriptionID rule)) ;;
                rolelookupMap ←
                  match ra_getRoleLookupMap s (SubscriptionID rule) with
                  | inl err =>
                      emit (LogError err "failed to get role name lookup map") ;;
                      throw err
                  | inr m => mret m
                  end ;
                match rolelookupMap !! specifiedRoleName with
                | Some foundName => mret foundName
                | None =>
                    emit (LogError errNoSuchBuiltInRole "cannot validate") ;;
                    throw errNoSuchBuiltInRole
                end
            | None =>
                emit (LogError errNoRoleIdentifierSpecified "cannot validate") ;;
                throw errNoRoleIdentifierSpecified
            end
        end ;
      reconcileRoles s rule found rest
        (match found !! roleName with
         | Some _ => failures
         | None =>
             failures ++ ["Service principal missing role " +:+ roleName]
         end)
  end.

(** The optimistic result built at lines 40-45. *)
Definition roleAssignmentSucceeded (rule : RoleAssignmentRule)
  : ValidationResult :=
  let latestCondition := DefaultValidationCondition now in
  {| Condition :=
       {| ValidationType := ValidationTypeRoleAssignment;
          ValidationRule :=
            ValidationRulePrefix +:+ "-" +:+ ServicePrincipalID rule;
          Message := "Service principal has all required roles.";
          Details := Details latestCondition;
          Failures := Failures latestCondition;
          Status := Status latestCondition;
          LastValidationTime := LastValidationTime latestCondition |};
     State := ValidationSucceeded |}.

Definition ReconcileRoleAssignmentRule (s : RoleAssignmentRuleService)
    (rule : RoleAssignmentRule) : Returned ValidationResult :=
  let validationResult := roleAssignmentSucceeded rule in
  let filter := principalFilter (ServicePrincipalID rule) in
  let body : Eff (list string) :=
    emit (CallListRoleAssignmentsForSubscription
            (SubscriptionID rule) filter) ;;
    roleAssignments ←
      match ListRoleAssignmentsForSubscription (ra_api s)
              (SubscriptionID rule) filter with
      | inl err =>
          emit (LogError err "failed to get role assignments") ;;
          throw err
      | inr ras => mret ras
      end ;
    reconcileRoles s rule (foundRoleNames roleAssignments) (Roles rule) []
  in
  match outcome body with
  | inl err => mkReturned (trace body) validationResult (Some err)
  | inr failures =>
      mkReturned (trace body)
        (if decide (0 < length failures) then
           markFailed validationResult
             "Service principal missing one or more required roles."
             failures
         else validationResult)
        None
  end.

(** *** rbac.go *)

Definition processPermissionSet (s : RBACRuleService) (set : PermissionSet)
    (principalID : string) (failures : list string) : Eff (list string) :=
  let filter := principalFilter principalID in
  emit (CallListRoleAssignmentsForScope (Scope set) filter) ;;
  roleAssignments ←
    match ListRoleAssignmentsForScope (rbac_api s) (Scope set) filter with
    | inl err => throw (errWrap "failed to get role assignments" err)
    | inr ras => mret ras
    end ;
  let found := foundRoleNames roleAssignments in
  let role := SetRole set in
  roleName ←
    match Name role with
    | Some name => mret name
    | None =>
        match RoleName role with
        | Some specifiedRoleName =>
            subForLookup ←
              match RoleAssignmentScopeSubscription (Scope set) with
              | inl err =>
                  emit (LogError err
                    "failed to parse subscription ID from scope string to perform role name lookup") ;;
                  throw err
              | inr sub => mret sub
              end ;
            emit (CallGetRoleLookupMap subForLookup) ;;
            rolelookupMap ←
              match rbac_getRoleLookupMap s subForLookup with
              | inl err =>
                  emit (LogError err "failed to get role name lookup map") ;;
                  throw err
              | inr m => mret m
              end ;
            match rolelookupMap !! specifiedRoleName with
            | Some foundName => mret foundName
            | None =>
                emit (LogError errNoSuchBuiltInRole "cannot validate") ;;
                throw errNoSuchBuiltInRole
            end
        | None =>
            emit (LogError errNoRoleIdentifierSpecified "cannot validate") ;;
            throw errNoRoleIdentifierSpecified
        end
    end ;
  mret (match found !! roleName with
        | Some _ => failures
        | None =>
            failures ++ ["Security principal missing role " +:+ roleName]
        end).

(** The loop over [rule.Permissions] (lines 55-62); [i] is the loop index. *)
Fixpoint processPermissions (s : RBACRuleService) (principalID : string)
    (i : nat) (sets : list PermissionSet) (failures : list string)
  : Eff (list string) :=
  match sets with
  | [] => mret failures
  | set :: rest =>
      emit (LogInfo "Processing permission set of rule." "set #" (i + 1)) ;;
      failures' ← processPermissionSet s set principalID failures ;
      processPermissions s principalID (S i) rest failures'
  end.

(** The optimistic result built at lines 46-51. *)
Definition rbacSucceeded (rule : RBACRule) : ValidationResult :=
  let latestCondition := DefaultValidationCondition now in
  {| Condition :=
       {| ValidationType := ValidationTypeRBAC;
          ValidationRule :=
            ValidationRulePrefix +:+ "-" +:+ SecurityPrincipalID rule;
          Message := "Security principal has all required roles.";
          Details := Details latestCondition;
          Failures := Failures latestCondition;
          Status := Status latestCondition;
          LastValidationTime := LastValidationTime latestCondition |};
     State := ValidationSucceeded |}.

Definition ReconcileRBACRule (s : RBACRuleService) (rule : RBACRule)
  : Returned ValidationResult :=
  let validationResult := rbacSucceeded rule in
  let body :=
    processPermissions s (SecurityPrincipalID rule) 0 (Permissions rule) []
  in
  match outcome body with
  | inl err => mkReturned (trace body) validationResult (Some err)
  | inr failures =>
      mkReturned (trace body)
        (if decide (0 < length failures) then
           markFailed validationResult
             "Security principal missing one or more required roles."
             failures
         else validationResult)
        None
  end.

End Validators.

(** ** role_assignment.go, earlier validator

    The second implementation held in [role_assignment.go]: one desired role
    per rule, a pager-based facade, the package-level lookup map, and
    [buildValidationResult] / [failValidationResult]. *)
Module Legacy.

(** The [roleAssignmentRule] interface. *)
Class roleAssignmentRule (R : Type) : Type := {
  GetRole : R -> Role;
  GetServicePrincipalID : R -> string;
  GetSubscriptionID : R -> string
}.

(** A pager is the sequence of answers its [NextPage] calls will give;
    [More] holds while answers remain.  A page's [Value] may be nil. *)
Definition Pager : Type := list (error + option (list RoleAssignment)).

Record roleAssignmentAPI : Type := {
  NewListForSubscriptionPager : string -> Pager
}.

Record RoleAssignmentRuleService : Type := NewRoleAssignmentRuleService {
  api : roleAssignmentAPI
}.

(** [fmt.Sprintf("%t", b)] *)
Definition fmtBool (b : bool) : string := if b then "true" else "false".

Definition isSome {A} (o : option A) : bool :=
  match o with Some _ => true | None => false end.

(** What the earlier validator uses besides [Externals]: the package-level
    [azure_utils.BuiltInRoleLookupMap], the [%q] verb of [fmt], and the
    clock reading of the second [DefaultValidationCondition], taken when no
    grant was found. *)
Class LegacyExternals : Type := {
  BuiltInRoleLookupMap : string -> error + gmap string string;
  GoQuote : string -> string;
  nowIfNoneFound : Z
}.

Section Validator.

Context `{!Externals} `{!LegacyExternals}.
Context {R : Type} `{!roleAssignmentRule R}.

(** The identifier of lines 250-256 (and 270-276). *)
Definition identifier (rule : R) : string :=
  match RoleName (GetRole rule) with
  | Some roleName => roleName
  | None =>
      match Name (GetRole rule) with
      | Some name => name
      | None => "invalid-config"
      end
  end.

Definition buildValidationResult (rule : R) (validationType : string)
  : ValidationResult :=
  let latestCondition := DefaultValidationCondition now in
  {| Condition :=
       {| ValidationType := validationType;
          ValidationRule :=
            ValidationRulePrefix +:+ "-" +:+ identifier rule;
          Message := "Required role assignment was found.";
          Details := Details latestCondition;
          Failures := Failures latestCondition;
          Status := Status latestCondition;
          LastValidationTime := LastValidationTime latestCondition |};
     State := ValidationSucceeded |}.

Definition failValidationResult (result : ValidationResult) (rule : R)
    (validationType message : string) (details : list string)
  : ValidationResult :=
  {| Condition :=
       {| ValidationType := validationType;
          ValidationRule :=
            ValidationRulePrefix +:+ "-" +:+ identifier rule;
          Message := message;
          Details := details;
          Failures := Failures (Condition result);
          Status := ConditionFalse;
          LastValidationTime := LastValidationTime (Condition result) |};
     State := ValidationFailed |}.

(** The pager loop of lines 171-179. *)
Fixpoint drainPager (pager : Pager)
    (roleAssignmentsFound : list RoleAssignment)
  : Eff (list RoleAssignment) :=
  match pager with
  | [] => mret roleAssignmentsFound
  | nextResult :: more =>
      emit CallNextPage ;;
      match nextResult with
      | inl err =>
          throw (errWrap
            "failed to retrieve next page of role assignment results from pager"
            err)
      | inr (Some value) => drainPager more (roleAssignmentsFound ++ value)
      | inr None => drainPager more roleAssignmentsFound
      end
  end.

(** The scan of lines 225-232: [inr true] when a grant with the desired
    role is met, [inr false] when the scan ends without one. *)
Fixpoint scanRoleAssignments (roleAssignmentsFound : list RoleAssignment)
    (roleName : string) : error + bool :=
  match roleAssignmentsFound with
  | [] => inr false
  | ra :: more =>
      match Properties ra with
      | Some props =>
          match RoleDefinitionID props with
          | Some id =>
              if decide (RoleNameFromRoleDefinitionID id = roleName)
              then inr true
              else scanRoleAssignments more roleName
          | None => inl errMalformedResponse
          end
      | None => inl errMalformedResponse
      end
  end.

Definition ReconcileRoleAssignmentRule (s : RoleAssignmentRuleService)
    (rule : R) : Returned (option ValidationResult) :=
  let vr := buildValidationResult rule ValidationTypeRoleAssignment in
  let filter :=
    QueryEscape
      ("principalId eq '" +:+ GetServicePrincipalID rule +:+ "'") in
  let body : Eff ValidationResult :=
    emit (CallNewListForSubscriptionPager filter) ;;
    roleAssignmentsFound ←
      drainPager (NewListForSubscriptionPager (api s) filter) [] ;
    if decide (length roleAssignmentsFound = 0) then
      let condition := DefaultValidationCondition nowIfNoneFound in
      mret {| Condition :=
                {| ValidationType := ValidationType condition;
                   ValidationRule := ValidationRule condition;
                   Message := "No role assignments found.";
                   Details := Details condition;
                   Failures := Failures condition;
                   Status := ConditionFalse;
                   LastValidationTime := LastValidationTime condition |};
              State := ValidationFailed |}
    else
      (* lines 194-221: either the role's name, or the result of an
         early [return vr, nil] *)
      resolved ←
        match Name (GetRole rule) with
        | Some name => mret (inr name)
        | None =>
            match RoleName (GetRole rule) with
            | Some specifiedRoleName =>
                emit (CallBuiltInRoleLookupMap (GetSubscriptionID rule)) ;;
                rolelookupMap ←
                  match BuiltInRoleLookupMap (GetSubscriptionID rule) with
                  | inl err =>
                      throw (errWrap "failed to get role lookup map" err)
                  | inr m => mret m
                  end ;
                match rolelookupMap !! specifiedRoleName with
                | None =>
                    mret (inl (failValidationResult vr rule
                            ValidationTypeRoleAssignment
                            "Role name specified does not exist. Cannot validate."
                            [ "provided role name: "
                                +:+ GoQuote specifiedRoleName ]))
                | Some foundName => mret (inr foundName)
                end
            | None =>
                mret (inl (failValidationResult vr rule
                        ValidationTypeRoleAssignment
                        "Neither role name nor name specified. Cannot validate."
                        []))
            end
        end ;
      match resolved with
      | inl returned => mret returned
      | inr roleName =>
          found ← mkEff []
            (scanRoleAssignments roleAssignmentsFound roleName) ;
          mret (if found : bool then vr else
            failValidationResult vr rule ValidationTypeRoleAssignment
              "Desired role assignment not found."
              [ "specified role name of role? "
                  +:+ fmtBool (isSome (RoleName (GetRole rule)));
                "specified name of role? "
                  +:+ fmtBool (isSome (Name (GetRole rule)));
                "specified service principal ID = "
                  +:+ GoQuote (GetServicePrincipalID rule);
                "specified subscription ID = "
                  +:+ GoQuote (GetSubscriptionID rule) ])
      end
  in
  match outcome body with
  | inl err => mkReturned (trace body) None (Some err)
  | inr res => mkReturned (trace body) (Some res) None
  end.

End Validator.

(** A rule carrying just the three values the interface asks for. *)
Record ruleData : Type := mkRuleData {
  role : Role;
  servicePrincipalID : string;
  subscriptionID : string
}.

#[global] Instance ruleData_rule : roleAssignmentRule ruleData := {|
  GetRole := role;
  GetServicePrincipalID := servicePrincipalID;
  GetSubscriptionID := subscriptionID
|}.

End Legacy.

(** ** Fixtures

    Concrete collaborators, used to run the validators on examples. *)
Module Fixtures.

Definition prefix : string := "validation".
Definition typeRoleAssignment : string := "azure-role-assignment".
Definition typeRBAC : string := "azure-rbac".

Definition slash : Ascii.ascii := Ascii.ascii_of_nat 47.

(** The last ["/"]-separated segment of a role-definition id. *)
Fixpoint lastSegment (acc s : string) : string :=
  match s with
  | EmptyString => acc
  | String c rest =>
      if Ascii.eqb c slash then lastSegment "" rest
      else lastSegment (acc +:+ String c "") rest
  end.

Definition roleNameFromID (id : string) : string := lastSegment "" id.

Fixpoint stripPrefix (p s : string) : option string :=
  match p, s with
  | EmptyString, _ => Some s
  | String a p', String b s' =>
      if Ascii.eqb a b then stripPrefix p' s' else None
  | String _ _, EmptyString => None
  end.

Fixpoint firstSegment (s : string) : string :=
  match s with
  | EmptyString => ""
  | String c rest =>
      if Ascii.eqb c slash then "" else String c (firstSegment rest)
  end.

Definition errBadScope : error := errCollaborator "no subscription in scope".

(** A scope parser: the segment after a leading ["/subscriptions/"]. *)
Definition scopeSubscription (scope : string) : error + string :=
  match stripPrefix "/subscriptions/" scope with
  | Some rest =>
      match firstSegment rest with
      | EmptyString => inl errBadScope
      | sub => inr sub
      end
  | None => inl errBadScope
  end.

Definition escape (s : string) : string := s.

Definition grant (id : string) : RoleAssignment :=
  {| Properties := Some {| RoleDefinitionID := Some id |} |}.

Definition grantNoProperties : RoleAssignment := {| Properties := None |}.

Definition grantNoRoleDefinitionID : RoleAssignment :=
  {| Properties := Some {| RoleDefinitionID := None |} |}.

Definition byName (id : string) : Role :=
  {| Name := Some id; RoleName := None |}.

Definition byRoleName (n : string) : Role :=
  {| Name := None; RoleName := Some n |}.

Definition unspecified : Role := {| Name := None; RoleName := None |}.

Definition builtIn : gmap string string :=
  <["Contributor" := "role-def-123"]> (<["Reader" := "role-def-456"]> ∅).

Definition lookupBuiltIn : roleLookupMapProvider := fun _ => inr builtIn.

Definition lookupDown : roleLookupMapProvider :=
  fun _ => inl (errCollaborator "lookup down").

Definition subscriptionAPI (ras : list RoleAssignment) : roleAssignmentAPI :=
  {| ListRoleAssignmentsForSubscription := fun _ _ => inr ras |}.

Definition scopeAPI (answer : string -> list RoleAssignment)
  : roleAssignmentAPI2 :=
  {| ListRoleAssignmentsForScope := fun scope _ => inr (answer scope) |}.

Definition pagerAPI (pager : Legacy.Pager) : Legacy.roleAssignmentAPI :=
  {| Legacy.NewListForSubscriptionPager := fun _ => pager |}.

Definition quote (s : string) : string := "'" +:+ s +:+ "'".

(** The role-definition id of the role named [r] in subscription [s1]. *)
Definition rid (r : string) : string :=
  "/subscriptions/s1/providers/Microsoft.Authorization/roleDefinitions/"
    +:+ r.

(** A facade that knows one subscription only. *)
Definition onlySubscription (sub : string) (ras : list RoleAssignment)
  : roleAssignmentAPI :=
  {| ListRoleAssignmentsForSubscription := λ subscription _,
       if decide (subscription = sub) then inr ras
       else inl (errCollaborator "unknown subscription") |}.

(** A facade that knows one scope only. *)
Definition onlyScope (scope : string) (ras : list RoleAssignment)
  : roleAssignmentAPI2 :=
  {| ListRoleAssignmentsForScope := λ scope' _,
       if decide (scope' = scope) then inr ras
       else inl (errCollaborator "unknown scope") |}.

(** The externals of the examples: an escape that changes nothing, role
    names read off the end of the role-definition id, clock readings 0. *)
#[export] Instance externals : Externals := {|
  ValidationRulePrefix := prefix;
  ValidationTypeRoleAssignment := typeRoleAssignment;
  ValidationTypeRBAC := typeRBAC;
  now := 0;
  QueryEscape := escape;
  RoleNameFromRoleDefinitionID := roleNameFromID;
  RoleAssignmentScopeSubscription := scopeSubscription
|}.

#[export] Instance legacyExternals : Legacy.LegacyExternals := {|
  Legacy.BuiltInRoleLookupMap := lookupBuiltIn;
  Legacy.GoQuote := quote;
  Legacy.nowIfNoneFound := 0
|}.

Definition legacyService (pager : Legacy.Pager)
  : Legacy.RoleAssignmentRuleService :=
  Legacy.NewRoleAssignmentRuleService (pagerAPI pager).

(** Grants for roles A and C, with two malformed grants among them. *)
Definition grantsAC : list RoleAssignment :=
  [grantNoProperties; grant (rid "A"); grantNoRoleDefinitionID;
   grant (rid "C")].

Definition serviceAC : RoleAssignmentRuleService :=
  NewRoleAssignmentRuleService (subscriptionAPI grantsAC) lookupBuiltIn.

Definition scopedAC : RBACRuleService :=
  NewRBACRuleService (scopeAPI (λ _, grantsAC)) lookupBuiltIn.

Definition ruleABC : RoleAssignmentRule :=
  mkRoleAssignmentRule [byName "A"; byName "B"; byName "C"] "p1" "s1".

Definition resourceGroup : string := "/subscriptions/s1/resourceGroups/rg".

(** The same grants at every scope, with a lookup provider that is down. *)
Definition scopedDown : RBACRuleService :=
  NewRBACRuleService (scopeAPI (λ _, grantsAC)) lookupDown.

(** A role that gives a canonical id and a friendly name at once. *)
Definition bothFields : Role :=
  {| Name := Some "A"; RoleName := Some "Contributor" |}.

Definition ruleAC : RoleAssignmentRule :=
  mkRoleAssignmentRule [byName "A"; byName "C"] "p1" "s1".

Definition ruleUnknown : RoleAssignmentRule :=
  mkRoleAssignmentRule [byName "B"; byRoleName "NoSuchRole"] "p1" "s1".

Definition setA : PermissionSet :=
  mkPermissionSet (byName "A") "/subscriptions/s1".

Definition setB : PermissionSet := mkPermissionSet (byName "B") resourceGroup.

Definition setBoth : PermissionSet := mkPermissionSet bothFields resourceGroup.

Definition setContributor : PermissionSet :=
  mkPermissionSet (byRoleName "Contributor") resourceGroup.

Definition setReader : PermissionSet :=
  mkPermissionSet (byRoleName "Reader") resourceGroup.

Definition setUnspecified : PermissionSet :=
  mkPermissionSet unspecified resourceGroup.

(** Two sets whose scope has no subscription segment. *)
Definition setABadScope : PermissionSet :=
  mkPermissionSet (byName "A") "not-a-scope".

Definition setContributorBadScope : PermissionSet :=
  mkPermissionSet (byRoleName "Contributor") "not-a-scope".

Definition multi (sets : list PermissionSet) : RBACRule :=
  mkRBACRule sets "p1".

(** A pager with one page, holding the grant for A. *)
Definition onePage : Legacy.Pager := [inr (Some [grant (rid "A")])].

Definition legacyRule (r : Role) : Legacy.ruleData :=
  Legacy.mkRuleData r "p1" "s1".

End Fixtures.

(** ** Vocabulary of the specification *)

(** A grant is well formed when it carries a role-definition reference. *)
Definition wellFormed (ra : RoleAssignment) : bool :=
  match Properties ra with
  | Some props =>
      match RoleDefinitionID props with Some _ => true | None => false end
  | None => false
  end.

(** The fetched sequence with the malformed grants taken out. *)
Definition dropMalformed (answer : error + list RoleAssignment)
  : error + list RoleAssignment :=
  match answer with
  | inl e => inl e
  | inr ras => inr (filter (λ ra, wellFormed ra = true) ras)
  end.

(** A facade that answers as [api] does, minus the malformed grants. *)
Definition withoutMalformed (api : roleAssignmentAPI) : roleAssignmentAPI :=
  {| ListRoleAssignmentsForSubscription := λ subscription filter,
       dropMalformed
         (ListRoleAssignmentsForSubscription api subscription filter) |}.

Definition withoutMalformed2 (api : roleAssignmentAPI2) : roleAssignmentAPI2 :=
  {| ListRoleAssignmentsForScope := λ scope filter,
       dropMalformed (ListRoleAssignmentsForScope api scope filter) |}.

Section Vocabulary.

Context `{!Externals}.

(** The canonical role name a grant stands for, if it is well formed. *)
Definition grantRole (ra : RoleAssignment) : option string :=
  match Properties ra with
  | Some props =>
      match RoleDefinitionID props with
      | Some id => Some (RoleNameFromRoleDefinitionID id)
      | None => None
      end
  | None => None
  end.

(** The grant set of section 4.2 of the specification. *)
Definition grantSet (ras : list RoleAssignment) : gset string :=
  list_to_set (omap grantRole ras).

(** The resolver of section 4.1, as the specification words it. *)
Definition specResolve (lookup : roleLookupMapProvider)
    (subscription : string) (ref : Role) : error + string :=
  match Name ref with
  | Some canonicalID => inr canonicalID
  | None =>
      match RoleName ref with
      | Some friendlyName =>
          match lookup subscription with
          | inl e => inl e
          | inr table =>
              match table !! friendlyName with
              | Some canonicalID => inr canonicalID
              | None => inl errNoSuchBuiltInRole
              end
          end
      | None => inl errNoRoleIdentifierSpecified
      end
  end.

(** Resolution of a permission set's role (section 4.4, steps 1 and 3):
    the subscription is the one parsed out of the set's scope, and the
    scope is only parsed when a friendly name has to be looked up. *)
Definition specResolveSet (lookup : roleLookupMapProvider)
    (set : PermissionSet) : error + string :=
  match Name (SetRole set) with
  | Some canonicalID => inr canonicalID
  | None =>
      match RoleName (SetRole set) with
      | Some friendlyName =>
          match RoleAssignmentScopeSubscription (Scope set) with
          | inl e => inl e
          | inr subscription =>
              specResolve lookup subscription (SetRole set)
          end
      | None => inl errNoRoleIdentifierSpecified
      end
  end.

(** What one desired role adds to the failures: nothing when its resolved
    id is in the grant set, one entry naming it otherwise. *)
Definition missingRole (ras : list RoleAssignment) (label id : string)
  : list string :=
  if decide (id ∈ grantSet ras) then [] else [label +:+ id].

(** What a permission set adds to the failures, given the grants fetched
    at its scope and the id its role resolved to. *)
Definition contribution (fetched : list RoleAssignment * string)
  : list string :=
  missingRole fetched.1 "Security principal missing role " fetched.2.

End Vocabulary.

(** ** Vocabulary for the calls made *)

(** A role that can only be resolved through the lookup table: it gives a
    friendly name and no canonical id. *)
Definition needsLookup (ref : Role) : bool :=
  match Name ref, RoleName ref with
  | None, Some _ => true
  | _, _ => false
  end.

(** What a page of the pager adds to the grants collected: its value, or
    nothing when the page failed or its value is nil. *)
Definition pageValue (page : error + option (list RoleAssignment))
  : list RoleAssignment :=
  match page with
  | inr (Some value) => value
  | _ => []
  end.

Section CallVocabulary.

Context `{!Externals}.

(** Two answers of a fetch that stand for the same grant set: the same
    error, or sequences of grants with the same set of role names. *)
Definition sameGrants (answer answer' : error + list RoleAssignment) : Prop :=
  match answer, answer' with
  | inl e, inl e' => e = e'
  | inr ras, inr ras' => grantSet ras = grantSet ras'
  | _, _ => False
  end.

(** The calls of one turn of the multi-scope loop that goes through: the
    log line with the set's number, the fetch at the set's scope, and, for a
    role with a friendly name only, the request for the lookup table of the
    subscription parsed from that scope. *)
Definition setCalls (principalID : string) (i : nat) (set : PermissionSet)
  : list Event :=
  LogInfo "Processing permission set of rule." "set #" (i + 1)
  :: CallListRoleAssignmentsForScope (Scope set) (principalFilter principalID)
  :: (if needsLookup (SetRole set) then
        match RoleAssignmentScopeSubscription (Scope set) with
        | inr sub => [CallGetRoleLookupMap sub]
        | inl _ => []
        end
      else []).

End CallVocabulary.

(** ** Further fixtures *)

Module Examples.

Import Fixtures.

(** The grants for A and C in another order, A twice, none malformed. *)
Definition grantsCAA : list RoleAssignment :=
  [grant (rid "C"); grant (rid "A"); grant (rid "A")].

Definition serviceCAA : RoleAssignmentRuleService :=
  NewRoleAssignmentRuleService (subscriptionAPI grantsCAA) lookupBuiltIn.

Definition scopedCAA : RBACRuleService :=
  NewRBACRuleService (scopeAPI (λ _, grantsCAA)) lookupBuiltIn.

(** A service that fetches the grant for A only. *)
Definition serviceA : RoleAssignmentRuleService :=
  NewRoleAssignmentRuleService (subscriptionAPI [grant (rid "A")])
    lookupBuiltIn.

(** A rule whose second role is an unknown friendly name, with one more
    role after it. *)
Definition ruleStops : RoleAssignmentRule :=
  mkRoleAssignmentRule [byName "B"; byRoleName "NoSuchRole"; byName "A"]
    "p1" "s1".

(** A rule with two roles that need the lookup table and two that do not. *)
Definition ruleMixed : RoleAssignmentRule :=
  mkRoleAssignmentRule
    [byRoleName "Contributor"; byName "A"; byRoleName "Reader"; bothFields]
    "p1" "s1".

(** A single-scope service whose facade does not know subscription s1. *)
Definition serviceElsewhere : RoleAssignmentRuleService :=
  NewRoleAssignmentRuleService (onlySubscription "s2" grantsAC) lookupBuiltIn.

(** A multi-scope service whose facade knows the resource group only. *)
Definition scopedGroupOnly : RBACRuleService :=
  NewRBACRuleService (onlyScope resourceGroup grantsAC) lookupBuiltIn.

Definition errThrottled : error := errCollaborator "throttled".

(** A pager whose second page fails. *)
Definition failingPager : Legacy.Pager :=
  [inr (Some [grant (rid "A")]); inl errThrottled;
   inr (Some [grant (rid "C")])].

(** A pager with two pages and no grant. *)
Definition emptyPager : Legacy.Pager := [inr None; inr (Some [])].

(** The grants for A and C over three pages, the second with a nil value. *)
Definition threePages : Legacy.Pager :=
  [inr (Some [grant (rid "A")]); inr None; inr (Some [grant (rid "C")])].

Definition matchThenMalformed : Legacy.Pager :=
  [inr (Some [grant (rid "C"); grant (rid "A")]);
   inr (Some [grantNoProperties])].

Definition malformedThenMatch : Legacy.Pager :=
  [inr (Some [grant (rid "C"); grantNoRoleDefinitionID; grant (rid "A")])].

Definition malformedOnly : Legacy.Pager := [inr (Some [grantNoProperties])].

(** Externals of the earlier validator whose lookup table is down. *)
Definition legacyDown : Legacy.LegacyExternals := {|
  Legacy.BuiltInRoleLookupMap := lookupDown;
  Legacy.GoQuote := quote;
  Legacy.nowIfNoneFound := 0
|}.

End Examples.

(** ** Properties *)

Lemma Eff_eta {A} (m : Eff A) : mkEff (trace m) (outcome m) = m.
Proof. by destruct m. Qed.

Lemma bind_ret_l {A B} (a : A) (k : A -> Eff B) : (mret a ≫= k) = k a.
Proof.
  unfold mbind, mret, Eff_bind, Eff_ret. cbn. apply Eff_eta.
Qed.

Lemma trace_emit_then {A} (ev : Event) (m : Eff A) :
  trace (emit ev ;; m) = ev :: trace m.
Proof. reflexivity. Qed.

Lemma outcome_emit_then {A} (ev : Event) (m : Eff A) :
  outcome (emit ev ;; m) = outcome m.
Proof. reflexivity. Qed.

Lemma outcome_bind {A B} (m : Eff A) (k : A -> Eff B) :
  outcome (m ≫= k) =
  match outcome m with inl e => inl e | inr a => outcome (k a) end.
Proof. unfold mbind, Eff_bind. by destruct (outcome m). Qed.

Lemma trace_bind {A B} (m : Eff A) (k : A -> Eff B) :
  trace (m ≫= k) =
  match outcome m with
  | inl e => trace m
  | inr a => trace m ++ trace (k a)
  end.
Proof. unfold mbind, Eff_bind. by destruct (outcome m). Qed.

Lemma bind_ext {A B} (m : Eff A) (k k' : A -> Eff B) :
  (∀ a, k a = k' a) → (m ≫= k) = (m ≫= k').
Proof.
  intros Hk. unfold mbind, Eff_bind. destruct (outcome m); [done|].
  by rewrite Hk.
Qed.

Lemma bind_assoc {A B C} (m : Eff A) (k : A -> Eff B) (k' : B -> Eff C) :
  ((m ≫= k) ≫= k') = (m ≫= λ a, k a ≫= k').
Proof.
  unfold mbind, Eff_bind. destruct (outcome m) as [e|a]; cbn; [done|].
  destruct (outcome (k a)); cbn; [done|]. by rewrite app_assoc.
Qed.

Section Properties.

Context `{!Externals}.

(** *** The grant set *)

Lemma recordRoleName_lookup (m : gmap string bool) ra k :
  is_Some (recordRoleName m ra !! k)
  ↔ is_Some (m !! k) ∨ grantRole ra = Some k.
Proof.
  unfold recordRoleName, grantRole.
  destruct (Properties ra) as [props|];
    [|split; [auto | intros [?|[=]]; done]].
  destruct (RoleDefinitionID props) as [id|];
    [|split; [auto | intros [?|[=]]; done]].
  rewrite lookup_insert_is_Some. split.
  - intros [->|[_ ?]]; auto.
  - intros [?|[= <-]]; [|by left].
    destruct (decide (RoleNameFromRoleDefinitionID id = k)); auto.
Qed.

Lemma fold_recordRoleName_lookup ras (m : gmap string bool) k :
  is_Some (fold_left recordRoleName ras m !! k)
  ↔ is_Some (m !! k) ∨ k ∈ omap grantRole ras.
Proof.
  revert m. induction ras as [|ra ras IH]; intros m; cbn [fold_left].
  - cbn. rewrite elem_of_nil. split; [auto | intros [?|[]]; done].
  - rewrite IH, recordRoleName_lookup. cbn.
    destruct (grantRole ra) as [r|] eqn:Hr.
    + rewrite elem_of_cons. split.
      * intros [[?|[= ->]]|?]; auto.
      * intros [?|[->|?]]; auto.
    + split; [intros [[?|[=]]|?]; auto | intros [?|?]; auto].
Qed.

Lemma foundRoleNames_grantSet ras k :
  is_Some (foundRoleNames ras !! k) ↔ k ∈ grantSet ras.
Proof.
  unfold foundRoleNames, grantSet.
  rewrite fold_recordRoleName_lookup, lookup_empty, elem_of_list_to_set.
  split; [intros [[? [=]]|?]; done | auto].
Qed.

Lemma foundRoleNames_absent ras k :
  foundRoleNames ras !! k = None ↔ k ∉ grantSet ras.
Proof.
  rewrite <- foundRoleNames_grantSet, eq_None_not_Some. done.
Qed.

(** *** The loop of the single-rule validator *)

Lemma check_found ras (failures : list string) label id :
  match foundRoleNames ras !! id with
  | Some _ => failures
  | None => failures ++ [label +:+ id]
  end = failures ++ missingRole ras label id.
Proof.
  unfold missingRole. destruct (foundRoleNames ras !! id) eqn:Hf.
  - rewrite decide_True; [by rewrite app_nil_r|].
    apply foundRoleNames_grantSet. by rewrite Hf.
  - rewrite decide_False; [done|]. by apply foundRoleNames_absent.
Qed.

(** One turn of the loop: it stops with the resolver's error, or goes on
    with what the resolved role adds to the failures. *)
Lemma reconcileRoles_step_outcome s rule ras role rest failures :
  outcome (reconcileRoles s rule (foundRoleNames ras) (role :: rest) failures) =
  match specResolve (ra_getRoleLookupMap s) (SubscriptionID rule) role with
  | inl e => inl e
  | inr id =>
      outcome (reconcileRoles s rule (foundRoleNames ras) rest
                 (failures
                    ++ missingRole ras "Service principal missing role " id))
  end.
Proof.
  unfold specResolve. cbn [reconcileRoles].
  destruct (Name role) as [name|].
  { by rewrite bind_ret_l, check_found. }
  destruct (RoleName role) as [friendly|]; [|done].
  rewrite !outcome_bind. cbn.
  destruct (ra_getRoleLookupMap s (SubscriptionID rule)) as [e|table];
    [done|].
  cbn. destruct (table !! friendly) as [canonical|] eqn:Ht; [|done].
  cbn. by rewrite check_found.
Qed.

Lemma reconcileRoles_resolved s rule ras roles ids failures :
  Forall2
    (λ role id,
       specResolve (ra_getRoleLookupMap s) (SubscriptionID rule) role
       = inr id)
    roles ids →
  outcome (reconcileRoles s rule (foundRoleNames ras) roles failures) =
  inr (failures
         ++ concat
              (missingRole ras "Service principal missing role " <$> ids)).
Proof.
  intros Hall. revert failures.
  induction Hall as [|role id roles ids Hres _ IH]; intros failures.
  - cbn. by rewrite app_nil_r.
  - rewrite reconcileRoles_step_outcome, Hres, IH.
    cbn. by rewrite app_assoc.
Qed.

Lemma concat_missingRole ras label ids :
  concat (missingRole ras label <$> ids)
  = (λ id, label +:+ id) <$> filter (λ id, id ∉ grantSet ras) ids.
Proof.
  induction ids as [|id ids IH]; [done|].
  rewrite fmap_cons, filter_cons. cbn [concat]. rewrite IH.
  unfold missingRole.
  destruct (decide (id ∈ grantSet ras)).
  - by rewrite decide_False by auto.
  - by rewrite decide_True by auto.
Qed.

(** The body of [ReconcileRoleAssignmentRule] once the fetch has answered. *)
Lemma reconcileRA_fetched s rule ras :
  ListRoleAssignmentsForSubscription (ra_api s) (SubscriptionID rule)
    (principalFilter (ServicePrincipalID rule)) = inr ras →
  ReconcileRoleAssignmentRule s rule =
  let body := reconcileRoles s rule (foundRoleNames ras) (Roles rule) [] in
  let calls :=
    CallListRoleAssignmentsForSubscription (SubscriptionID rule)
      (principalFilter (ServicePrincipalID rule)) :: trace body in
  match outcome body with
  | inl e => mkReturned calls (roleAssignmentSucceeded rule) (Some e)
  | inr failures =>
      mkReturned calls
        (if decide (0 < length failures) then
           markFailed (roleAssignmentSucceeded rule)
             "Service principal missing one or more required roles."
             failures
         else roleAssignmentSucceeded rule)
        None
  end.
Proof.
  intros Hfetch. unfold ReconcileRoleAssignmentRule. rewrite Hfetch.
  cbv zeta. rewrite bind_ret_l, outcome_emit_then, trace_emit_then.
  reflexivity.
Qed.

(** C2.  When the fetch answers and every desired role resolves, the call
    returns no error, its failures list holds one entry for each desired
    role whose resolved id is absent from the grant set, in the order of
    the desired roles, and the state is Succeeded with no failures exactly
    when no resolved role is absent, Failed otherwise. *)
Theorem single_rule_reports_absent_roles s rule ras ids :
  ListRoleAssignmentsForSubscription (ra_api s) (SubscriptionID rule)
    (principalFilter (ServicePrincipalID rule)) = inr ras →
  Forall2
    (λ role id,
       specResolve (ra_getRoleLookupMap s) (SubscriptionID rule) role
       = inr id)
    (Roles rule) ids →
  let absent := filter (λ id, id ∉ grantSet ras) ids in
  let r := ReconcileRoleAssignmentRule s rule in
  err r = None
  ∧ Failures (Condition (result r))
    = (λ id, "Service principal missing role " +:+ id) <$> absent
  ∧ (State (result r) = ValidationSucceeded
     ∧ Failures (Condition (result r)) = [] ↔ absent = [])
  ∧ (State (result r) = ValidationFailed ↔ absent ≠ []).
Proof.
  intros Hfetch Hall absent r. subst r.
  rewrite (reconcileRA_fetched _ _ _ Hfetch). cbv zeta.
  rewrite (reconcileRoles_resolved _ _ _ _ _ _ Hall), app_nil_l.
  rewrite concat_missingRole. fold absent.
  destruct absent as [|a absent'].
  - rewrite decide_False by (cbn; lia).
    repeat split; auto; intros; congruence.
  - rewrite decide_True by (cbn; lia). cbn.
    repeat split; auto; try (intros [? ?]; congruence);
      intros; congruence.
Qed.

(** *** The multi-scope validator *)

Lemma processSet_outcome s set principalID failures :
  outcome (processPermissionSet s set principalID failures) =
  match ListRoleAssignmentsForScope (rbac_api s) (Scope set)
          (principalFilter principalID) with
  | inl e => inl (errWrap "failed to get role assignments" e)
  | inr ras =>
      match specResolveSet (rbac_getRoleLookupMap s) set with
      | inl e => inl e
      | inr id =>
          inr (failures
                 ++ missingRole ras "Security principal missing role " id)
      end
  end.
Proof.
  unfold processPermissionSet, specResolveSet, specResolve.
  rewrite outcome_emit_then.
  destruct (ListRoleAssignmentsForScope _ _ _) as [e|ras]; [done|].
  rewrite bind_ret_l.
  destruct (Name (SetRole set)) as [name|].
  { rewrite bind_ret_l. cbn. by rewrite check_found. }
  destruct (RoleName (SetRole set)) as [friendly|]; [|done].
  destruct (RoleAssignmentScopeSubscription (Scope set)) as [e|sub];
    [done|].
  rewrite bind_ret_l, !outcome_bind. cbn.
  destruct (rbac_getRoleLookupMap s sub) as [e|table]; [done|].
  cbn. destruct (table !! friendly) as [canonical|]; [|done].
  cbn. by rewrite check_found.
Qed.

Lemma processSets_step_outcome s principalID i set rest failures :
  outcome (processPermissions s principalID i (set :: rest) failures) =
  match outcome (processPermissionSet s set principalID failures) with
  | inl e => inl e
  | inr failures' =>
      outcome (processPermissions s principalID (S i) rest failures')
  end.
Proof.
  cbn [processPermissions]. by rewrite outcome_emit_then, outcome_bind.
Qed.

Lemma processSets_resolved s principalID i sets per failures :
  Forall2
    (λ set fetched,
       ListRoleAssignmentsForScope (rbac_api s) (Scope set)
         (principalFilter principalID) = inr fetched.1
       ∧ specResolveSet (rbac_getRoleLookupMap s) set = inr fetched.2)
    sets per →
  outcome (processPermissions s principalID i sets failures) =
  inr (failures ++ concat (contribution <$> per)).
Proof.
  intros Hall. revert i failures.
  induction Hall as [|set fetched sets per [Hfetch Hres] _ IH];
    intros i failures.
  - cbn. by rewrite app_nil_r.
  - rewrite processSets_step_outcome, processSet_outcome, Hfetch, Hres, IH.
    cbn. by rewrite app_assoc.
Qed.

Lemma reconcileRBAC_unfold s rule :
  ReconcileRBACRule s rule =
  let body :=
    processPermissions s (SecurityPrincipalID rule) 0 (Permissions rule) [] in
  match outcome body with
  | inl e => mkReturned (trace body) (rbacSucceeded rule) (Some e)
  | inr failures =>
      mkReturned (trace body)
        (if decide (0 < length failures) then
           markFailed (rbacSucceeded rule)
             "Security principal missing one or more required roles."
             failures
         else rbacSucceeded rule)
        None
  end.
Proof. reflexivity. Qed.

(** C6, as the code has it.  When every permission set of a multi-scope
    rule is fetched and resolved without error, the final failures list is
    the concatenation, in the order of the sets, of what each set
    contributes: nothing when its resolved role is in that set's grant set,
    and otherwise the single entry "Security principal missing role <id>",
    which names the role and not the scope. *)
Theorem multi_scope_reports_absent_roles s rule per :
  Forall2
    (λ set fetched,
       ListRoleAssignmentsForScope (rbac_api s) (Scope set)
         (principalFilter (SecurityPrincipalID rule)) = inr fetched.1
       ∧ specResolveSet (rbac_getRoleLookupMap s) set = inr fetched.2)
    (Permissions rule) per →
  let r := ReconcileRBACRule s rule in
  err r = None
  ∧ Failures (Condition (result r))
    = concat
        ((λ fetched,
            if decide (fetched.2 ∈ grantSet fetched.1) then []
            else ["Security principal missing role " +:+ fetched.2])
           <$> per).
Proof.
  intros Hall r. subst r. rewrite reconcileRBAC_unfold. cbv zeta.
  rewrite (processSets_resolved _ _ _ _ _ _ Hall), app_nil_l.
  change (λ fetched : list RoleAssignment * string,
            if decide (fetched.2 ∈ grantSet fetched.1) then []
            else ["Security principal missing role " +:+ fetched.2])
    with contribution.
  destruct (concat (contribution <$> per)); done.
Qed.

(** *** Dependence on the collaborators *)

Lemma reconcileRoles_ext s s' rule fnd roles failures :
  ra_getRoleLookupMap s (SubscriptionID rule)
  = ra_getRoleLookupMap s' (SubscriptionID rule) →
  reconcileRoles s rule fnd roles failures
  = reconcileRoles s' rule fnd roles failures.
Proof.
  intros Hlookup. revert failures.
  induction roles as [|role rest IH]; intros failures; [done|].
  cbn [reconcileRoles]. rewrite <- Hlookup.
  apply bind_ext. intros roleName. apply IH.
Qed.

Lemma processSet_ext s s' set principalID failures :
  ListRoleAssignmentsForScope (rbac_api s) (Scope set)
    (principalFilter principalID)
  = ListRoleAssignmentsForScope (rbac_api s') (Scope set)
      (principalFilter principalID) →
  (∀ sub, RoleAssignmentScopeSubscription (Scope set) = inr sub →
          rbac_getRoleLookupMap s sub = rbac_getRoleLookupMap s' sub) →
  processPermissionSet s set principalID failures
  = processPermissionSet s' set principalID failures.
Proof.
  intros Hfetch Hlookup. unfold processPermissionSet. rewrite <- Hfetch.
  apply bind_ext. intros _. apply bind_ext. intros ras.
  f_equal.
  destruct (Name (SetRole set)); [done|].
  destruct (RoleName (SetRole set)); [|done].
  destruct (RoleAssignmentScopeSubscription (Scope set)) as [e|sub];
    [done|].
  rewrite !bind_ret_l. by rewrite (Hlookup sub).
Qed.

Lemma processSets_ext s s' principalID i sets failures :
  (∀ set, set ∈ sets →
     ListRoleAssignmentsForScope (rbac_api s) (Scope set)
       (principalFilter principalID)
     = ListRoleAssignmentsForScope (rbac_api s') (Scope set)
         (principalFilter principalID)) →
  (∀ set sub, set ∈ sets →
     RoleAssignmentScopeSubscription (Scope set) = inr sub →
     rbac_getRoleLookupMap s sub = rbac_getRoleLookupMap s' sub) →
  processPermissions s principalID i sets failures
  = processPermissions s' principalID i sets failures.
Proof.
  revert i failures.
  induction sets as [|set rest IH]; intros i failures Hfetch Hlookup;
    [done|].
  cbn [processPermissions]. apply bind_ext. intros _.
  rewrite (processSet_ext s s').
  - apply bind_ext. intros failures'. apply IH.
    + intros set' Hin. apply Hfetch. by right.
    + intros set' sub Hin. apply Hlookup. by right.
  - apply Hfetch. by left.
  - intros sub. apply Hlookup. by left.
Qed.

(** Two services that answer alike at the places the rule names give the
    same return, at one reading of the clock. *)
Lemma same_answers_same_return s s' t t' rule rbacRule :
  ListRoleAssignmentsForSubscription (ra_api s) (SubscriptionID rule)
    (principalFilter (ServicePrincipalID rule))
  = ListRoleAssignmentsForSubscription (ra_api s') (SubscriptionID rule)
      (principalFilter (ServicePrincipalID rule)) →
  ra_getRoleLookupMap s (SubscriptionID rule)
  = ra_getRoleLookupMap s' (SubscriptionID rule) →
  (∀ set, set ∈ Permissions rbacRule →
     ListRoleAssignmentsForScope (rbac_api t) (Scope set)
       (principalFilter (SecurityPrincipalID rbacRule))
     = ListRoleAssignmentsForScope (rbac_api t') (Scope set)
         (principalFilter (SecurityPrincipalID rbacRule))) →
  (∀ set sub, set ∈ Permissions rbacRule →
     RoleAssignmentScopeSubscription (Scope set) = inr sub →
     rbac_getRoleLookupMap t sub = rbac_getRoleLookupMap t' sub) →
  ReconcileRoleAssignmentRule s rule = ReconcileRoleAssignmentRule s' rule
  ∧ ReconcileRBACRule t rbacRule = ReconcileRBACRule t' rbacRule.
Proof.
  intros Hfetch Hlookup Hfetch2 Hlookup2. split.
  - unfold ReconcileRoleAssignmentRule. rewrite <- Hfetch.
    destruct (ListRoleAssignmentsForSubscription _ _ _) as [e|ras];
      [done|].
    rewrite !bind_ret_l.
    by rewrite (reconcileRoles_ext s s' _ _ _ _ Hlookup).
  - rewrite !reconcileRBAC_unfold.
    by rewrite (processSets_ext t t' _ _ _ _ Hfetch2 Hlookup2).
Qed.

(** A call made at another reading of the clock makes the same calls and
    returns the same error and the same result but for the time. *)
Lemma reconcileRA_clock clock s rule :
  @ReconcileRoleAssignmentRule (withClock clock) s rule
  = mkReturned (calls (ReconcileRoleAssignmentRule s rule))
      (atTime clock (result (ReconcileRoleAssignmentRule s rule)))
      (err (ReconcileRoleAssignmentRule s rule)).
Proof.
  unfold ReconcileRoleAssignmentRule. cbv zeta.
  change (@principalFilter (withClock clock)) with principalFilter.
  change (@foundRoleNames (withClock clock)) with foundRoleNames.
  destruct (outcome _) as [e|failures]; [reflexivity|].
  destruct (decide _); reflexivity.
Qed.

Lemma reconcileRBAC_clock clock t rule :
  @ReconcileRBACRule (withClock clock) t rule
  = mkReturned (calls (ReconcileRBACRule t rule))
      (atTime clock (result (ReconcileRBACRule t rule)))
      (err (ReconcileRBACRule t rule)).
Proof.
  unfold ReconcileRBACRule. cbv zeta.
  change (@processPermissions (withClock clock)) with processPermissions.
  destruct (outcome _) as [e|failures]; [reflexivity|].
  destruct (decide _); reflexivity.
Qed.

(** C9, as the code has it.  A reconciliation call is a function of the
    rule, of the answers of the collaborators at the places the rule names
    (the grants for the rule's subscription or scopes, the lookup table for
    the subscriptions involved) and of the clock reading that
    [DefaultValidationCondition] takes in the call.  Two calls on the same
    rule whose collaborators answer alike there, made at the readings
    [clock] and [clock'], make the same calls and return the same error and
    results that agree in every field but [LastValidationTime], which is the
    reading of each call; the returns are identical when the readings are. *)
Theorem results_agree_up_to_the_clock s s' t t' rule rbacRule clock clock' :
  ListRoleAssignmentsForSubscription (ra_api s) (SubscriptionID rule)
    (principalFilter (ServicePrincipalID rule))
  = ListRoleAssignmentsForSubscription (ra_api s') (SubscriptionID rule)
      (principalFilter (ServicePrincipalID rule)) →
  ra_getRoleLookupMap s (SubscriptionID rule)
  = ra_getRoleLookupMap s' (SubscriptionID rule) →
  (∀ set, set ∈ Permissions rbacRule →
     ListRoleAssignmentsForScope (rbac_api t) (Scope set)
       (principalFilter (SecurityPrincipalID rbacRule))
     = ListRoleAssignmentsForScope (rbac_api t') (Scope set)
         (principalFilter (SecurityPrincipalID rbacRule))) →
  (∀ set sub, set ∈ Permissions rbacRule →
     RoleAssignmentScopeSubscription (Scope set) = inr sub →
     rbac_getRoleLookupMap t sub = rbac_getRoleLookupMap t' sub) →
  let r := @ReconcileRoleAssignmentRule (withClock clock) s rule in
  let r' := @ReconcileRoleAssignmentRule (withClock clock') s' rule in
  let q := @ReconcileRBACRule (withClock clock) t rbacRule in
  let q' := @ReconcileRBACRule (withClock clock') t' rbacRule in
  r' = mkReturned (calls r) (atTime clock' (result r)) (err r)
  ∧ LastValidationTime (Condition (result r)) = clock
  ∧ q' = mkReturned (calls q) (atTime clock' (result q)) (err q)
  ∧ LastValidationTime (Condition (result q)) = clock
  ∧ (clock = clock' → r = r' ∧ q = q').
Proof.
  intros Hfetch Hlookup Hfetch2 Hlookup2 r r' q q'. subst r r' q q'.
  destruct (same_answers_same_return s s' t t' rule rbacRule
              Hfetch Hlookup Hfetch2 Hlookup2) as [Hsingle Hmulti].
  rewrite !reconcileRA_clock, !reconcileRBAC_clock, <- Hsingle, <- Hmulti.
  cbn [calls result err atTime Condition LastValidationTime].
  do 4 (split; [reflexivity|]). intros ->. split; reflexivity.
Qed.

(** *** Malformed grants *)

Lemma recordRoleName_malformed (m : gmap string bool) ra :
  wellFormed ra = false → recordRoleName m ra = m.
Proof.
  unfold wellFormed, recordRoleName.
  destruct (Properties ra) as [props|]; [|done].
  by destruct (RoleDefinitionID props).
Qed.

Lemma fold_recordRoleName_filter ras (m : gmap string bool) :
  fold_left recordRoleName (filter (λ ra, wellFormed ra = true) ras) m
  = fold_left recordRoleName ras m.
Proof.
  revert m. induction ras as [|ra ras IH]; intros m; [done|].
  rewrite filter_cons. destruct (decide (wellFormed ra = true)) as [Hw|Hw].
  - cbn. apply IH.
  - cbn. rewrite IH. f_equal. symmetry. apply recordRoleName_malformed.
    by destruct (wellFormed ra).
Qed.

Lemma foundRoleNames_filter ras :
  foundRoleNames (filter (λ ra, wellFormed ra = true) ras)
  = foundRoleNames ras.
Proof. apply fold_recordRoleName_filter. Qed.

(** C1, as the code has it.  A grant without a role-definition reference
    is skipped, not reported: for every service and rule, either validator
    returns the same result, the same error and the same calls as it does
    when the malformed grants are taken out of every fetched sequence.  A
    malformed grant therefore never causes an error by itself. *)
Theorem malformed_grants_are_skipped api api2 lookup rule rbacRule :
  ReconcileRoleAssignmentRule (NewRoleAssignmentRuleService api lookup) rule
  = ReconcileRoleAssignmentRule
      (NewRoleAssignmentRuleService (withoutMalformed api) lookup) rule
  ∧ ReconcileRBACRule (NewRBACRuleService api2 lookup) rbacRule
    = ReconcileRBACRule
        (NewRBACRuleService (withoutMalformed2 api2) lookup) rbacRule.
Proof.
  split.
  - unfold ReconcileRoleAssignmentRule. cbn.
    destruct (ListRoleAssignmentsForSubscription api _ _) as [e|ras];
      [done|].
    cbn [dropMalformed]. rewrite !bind_ret_l, foundRoleNames_filter.
    by rewrite (reconcileRoles_ext
                  (NewRoleAssignmentRuleService api lookup)
                  (NewRoleAssignmentRuleService (withoutMalformed api)
                     lookup)).
  - rewrite !reconcileRBAC_unfold.
    assert (∀ sets i failures,
      processPermissions (NewRBACRuleService api2 lookup)
        (SecurityPrincipalID rbacRule) i sets failures
      = processPermissions (NewRBACRuleService (withoutMalformed2 api2) lookup)
          (SecurityPrincipalID rbacRule) i sets failures) as Heq.
    { induction sets as [|set rest IH]; intros i failures; [done|].
      cbn [processPermissions]. apply bind_ext. intros _.
      assert (processPermissionSet (NewRBACRuleService api2 lookup) set
                (SecurityPrincipalID rbacRule) failures
              = processPermissionSet
                  (NewRBACRuleService (withoutMalformed2 api2) lookup) set
                  (SecurityPrincipalID rbacRule) failures) as ->.
      { unfold processPermissionSet. cbn.
        destruct (ListRoleAssignmentsForScope api2 _ _) as [e|ras];
          [done|].
        cbn [dropMalformed]. by rewrite !bind_ret_l, foundRoleNames_filter. }
      apply bind_ext. intros failures'. apply IH. }
    by rewrite Heq.
Qed.

(** *** Resolution *)

Lemma reconcileRoles_named_trace s rule fnd roles failures :
  Forall (λ role, is_Some (Name role)) roles →
  trace (reconcileRoles s rule fnd roles failures) = [].
Proof.
  intros Hall. revert failures.
  induction Hall as [|role rest [id Hid] _ IH]; intros failures; [done|].
  cbn [reconcileRoles]. rewrite Hid, bind_ret_l. apply IH.
Qed.

(** C3.  A role reference that carries a canonical id resolves to that id
    as it stands, whether or not a friendly name is given as well, and the
    lookup-map provider is not consulted.  A single-scope rule whose roles
    all carry an id makes the grant fetch and no other call, and reports as
    missing exactly the ids that are absent from the grant set, under their
    own names and in the order of the roles, whatever the friendly names and
    the provider are; the turn of the loop for such a role, in any rule,
    makes no call and goes on with the id itself; and the multi-scope
    validator makes the grant fetch and nothing else, and tests the id
    itself.  The id is compared with the grant set and with nothing else. *)
Theorem canonical_id_takes_precedence
    s rule fetched ids fnd role rest failures t set principalID ras id :
  ListRoleAssignmentsForSubscription (ra_api s) (SubscriptionID rule)
    (principalFilter (ServicePrincipalID rule)) = inr fetched →
  Forall2 (λ role' id', Name role' = Some id') (Roles rule) ids →
  Name role = Some id →
  SetRole set = role →
  ListRoleAssignmentsForScope (rbac_api t) (Scope set)
    (principalFilter principalID) = inr ras →
  ReconcileRoleAssignmentRule s rule
  = mkReturned
      [CallListRoleAssignmentsForSubscription (SubscriptionID rule)
         (principalFilter (ServicePrincipalID rule))]
      (match filter (λ id', id' ∉ grantSet fetched) ids with
       | [] => roleAssignmentSucceeded rule
       | absent =>
           markFailed (roleAssignmentSucceeded rule)
             "Service principal missing one or more required roles."
             ((λ id', "Service principal missing role " +:+ id') <$> absent)
       end)
      None
  ∧ reconcileRoles s rule fnd (role :: rest) failures
    = reconcileRoles s rule fnd rest
        (match fnd !! id with
         | Some _ => failures
         | None => failures ++ ["Service principal missing role " +:+ id]
         end)
  ∧ processPermissionSet t set principalID failures
    = mkEff
        [CallListRoleAssignmentsForScope (Scope set)
           (principalFilter principalID)]
        (inr (match foundRoleNames ras !! id with
              | Some _ => failures
              | None =>
                  failures ++ ["Security principal missing role " +:+ id]
              end)).
Proof.
  intros Hfetch Hall Hid Hset Hfetch2. split; [|split].
  - assert (Forall (λ role', is_Some (Name role')) (Roles rule)) as Hnamed.
    { clear Hfetch. revert Hall. generalize (Roles rule). intros roles Hall.
      induction Hall; constructor; eauto. }
    assert (Forall2
              (λ role' id',
                 specResolve (ra_getRoleLookupMap s) (SubscriptionID rule)
                   role' = inr id')
              (Roles rule) ids) as Hres.
    { eapply Forall2_impl; [exact Hall|]. intros role' id' Hrole.
      unfold specResolve. by rewrite Hrole. }
    rewrite (reconcileRA_fetched _ _ _ Hfetch). cbv zeta.
    rewrite (reconcileRoles_named_trace _ _ _ _ _ Hnamed).
    rewrite (reconcileRoles_resolved _ _ _ _ _ _ Hres), app_nil_l.
    rewrite concat_missingRole.
    destruct (filter _ ids) as [|a absent].
    + by rewrite decide_False by (cbn; lia).
    + by rewrite decide_True by (cbn; lia).
  - cbn [reconcileRoles]. by rewrite Hid, bind_ret_l.
  - unfold processPermissionSet. rewrite Hfetch2, Hset, Hid.
    by rewrite !bind_ret_l.
Qed.

Lemma reconcileRoles_unresolved s rule ras roles failures role e :
  role ∈ roles →
  specResolve (ra_getRoleLookupMap s) (SubscriptionID rule) role = inl e →
  ∃ e', outcome (reconcileRoles s rule (foundRoleNames ras) roles failures)
        = inl e'.
Proof.
  intros Hin Hres. revert failures.
  induction roles as [|role' rest IH]; intros failures.
  { by apply elem_of_nil in Hin. }
  rewrite reconcileRoles_step_outcome.
  apply elem_of_cons in Hin as [<-|Hin].
  - rewrite Hres. eauto.
  - destruct (specResolve _ _ role'); eauto.
Qed.

Lemma processSets_unresolved s principalID i sets failures set e :
  set ∈ sets →
  specResolveSet (rbac_getRoleLookupMap s) set = inl e →
  ∃ e', outcome (processPermissions s principalID i sets failures) = inl e'.
Proof.
  intros Hin Hres. revert i failures.
  induction sets as [|set' rest IH]; intros i failures.
  { by apply elem_of_nil in Hin. }
  rewrite processSets_step_outcome, processSet_outcome.
  apply elem_of_cons in Hin as [<-|Hin].
  - rewrite Hres. destruct (ListRoleAssignmentsForScope _ _ _); eauto.
  - destruct (ListRoleAssignmentsForScope _ _ _); eauto.
    destruct (specResolveSet _ set'); eauto.
Qed.

(** C4, for the two current validators.  If a role of the rule cannot be
    resolved (its friendly name is not in the lookup table, or it has
    neither field), the call returns a non-nil error together with the
    untouched optimistic result, so nothing is put in the failures list;
    and the resolution of a reference with neither field stops with
    [errNoRoleIdentifierSpecified] after a log line, without a call to the
    lookup provider. *)
Theorem unresolvable_role_is_an_error
    s rule role e t rbacRule set e2 fnd rest failures ras :
  role ∈ Roles rule →
  specResolve (ra_getRoleLookupMap s) (SubscriptionID rule) role = inl e →
  set ∈ Permissions rbacRule →
  specResolveSet (rbac_getRoleLookupMap t) set = inl e2 →
  (∃ e', err (ReconcileRoleAssignmentRule s rule) = Some e')
  ∧ result (ReconcileRoleAssignmentRule s rule) = roleAssignmentSucceeded rule
  ∧ Failures (Condition (result (ReconcileRoleAssignmentRule s rule))) = []
  ∧ (∃ e', err (ReconcileRBACRule t rbacRule) = Some e')
  ∧ result (ReconcileRBACRule t rbacRule) = rbacSucceeded rbacRule
  ∧ Failures (Condition (result (ReconcileRBACRule t rbacRule))) = []
  ∧ (Name role = None → RoleName role = None →
     reconcileRoles s rule fnd (role :: rest) failures
     = mkEff [LogError errNoRoleIdentifierSpecified "cannot validate"]
         (inl errNoRoleIdentifierSpecified))
  ∧ (Name (SetRole set) = None → RoleName (SetRole set) = None →
     ListRoleAssignmentsForScope (rbac_api t) (Scope set)
       (principalFilter (SecurityPrincipalID rbacRule)) = inr ras →
     processPermissionSet t set (SecurityPrincipalID rbacRule) failures
     = mkEff
         [CallListRoleAssignmentsForScope (Scope set)
            (principalFilter (SecurityPrincipalID rbacRule));
          LogError errNoRoleIdentifierSpecified "cannot validate"]
         (inl errNoRoleIdentifierSpecified)).
Proof.
  intros Hin Hres Hin2 Hres2.
  assert (∃ e', err (ReconcileRoleAssignmentRule s rule) = Some e'
                ∧ result (ReconcileRoleAssignmentRule s rule)
                  = roleAssignmentSucceeded rule)
    as (e' & He' & Hr).
  { unfold ReconcileRoleAssignmentRule. cbv zeta.
    destruct (ListRoleAssignmentsForSubscription _ _ _) as [e0|ras0].
    - cbn. eauto.
    - rewrite bind_ret_l, outcome_emit_then.
      destruct (reconcileRoles_unresolved s rule ras0 (Roles rule) []
                  role e Hin Hres) as [e' ->].
      cbn. eauto. }
  assert (∃ e', err (ReconcileRBACRule t rbacRule) = Some e'
                ∧ result (ReconcileRBACRule t rbacRule)
                  = rbacSucceeded rbacRule)
    as (e2' & He2' & Hr2).
  { rewrite reconcileRBAC_unfold. cbv zeta.
    destruct (processSets_unresolved t (SecurityPrincipalID rbacRule) 0
                (Permissions rbacRule) [] set e2 Hin2 Hres2) as [e3 ->].
    cbn. eauto. }
  repeat split; eauto.
  - by rewrite Hr.
  - by rewrite Hr2.
  - intros Hname Hrole. cbn [reconcileRoles]. by rewrite Hname, Hrole.
  - intros Hname Hrole Hfetch. unfold processPermissionSet.
    by rewrite Hfetch, Hname, Hrole.
Qed.

(** C5, for the two current validators.  Every result they return is in
    one of two shapes: the optimistic one (Succeeded, condition true, the
    success message, no failures), or the failed one, in which the state,
    the condition status, the message and a non-empty failures list have
    all been set together; so the failures list is non-empty exactly when
    the state is Failed. *)
Theorem result_is_all_or_nothing s rule t rbacRule :
  let r := result (ReconcileRoleAssignmentRule s rule) in
  let r2 := result (ReconcileRBACRule t rbacRule) in
  ((State r = ValidationSucceeded ∧ Status (Condition r) = ConditionTrue
    ∧ Message (Condition r) = "Service principal has all required roles."
    ∧ Failures (Condition r) = [])
   ∨ (State r = ValidationFailed ∧ Status (Condition r) = ConditionFalse
      ∧ Message (Condition r)
        = "Service principal missing one or more required roles."
      ∧ Failures (Condition r) ≠ []))
  ∧ (Failures (Condition r) ≠ [] ↔ State r = ValidationFailed)
  ∧ ((State r2 = ValidationSucceeded ∧ Status (Condition r2) = ConditionTrue
      ∧ Message (Condition r2) = "Security principal has all required roles."
      ∧ Failures (Condition r2) = [])
     ∨ (State r2 = ValidationFailed ∧ Status (Condition r2) = ConditionFalse
        ∧ Message (Condition r2)
          = "Security principal missing one or more required roles."
        ∧ Failures (Condition r2) ≠ []))
  ∧ (Failures (Condition r2) ≠ [] ↔ State r2 = ValidationFailed).
Proof.
  cbv zeta. unfold ReconcileRoleAssignmentRule, ReconcileRBACRule.
  cbv zeta.
  match goal with
  | |- context [outcome ?b] => destruct (outcome b) as [e|failures]
  end;
  match goal with
  | |- context [outcome ?b] => destruct (outcome b) as [e2|failures2]
  end;
  try destruct failures; try destruct failures2; cbn;
  repeat split; intros; try congruence; try done;
  try (left; repeat split; done); try (right; repeat split; done).
Qed.

(** *** Scope parsing *)

Lemma processSets_app s principalID i pre rest failures :
  processPermissions s principalID i (pre ++ rest) failures
  = (processPermissions s principalID i pre failures
       ≫= processPermissions s principalID (i + length pre) rest).
Proof.
  revert i failures.
  induction pre as [|set pre IH]; intros i failures.
  - cbn [app processPermissions length].
    by rewrite bind_ret_l, Nat.add_0_r.
  - cbn [app processPermissions length]. rewrite !bind_assoc.
    apply bind_ext. intros _.
    apply bind_ext. intros failures'.
    by rewrite IH, Nat.add_succ_comm.
Qed.

Lemma processSet_parse_failure s set principalID failures friendly ras e :
  Name (SetRole set) = None →
  RoleName (SetRole set) = Some friendly →
  ListRoleAssignmentsForScope (rbac_api s) (Scope set)
    (principalFilter principalID) = inr ras →
  RoleAssignmentScopeSubscription (Scope set) = inl e →
  processPermissionSet s set principalID failures
  = mkEff
      [CallListRoleAssignmentsForScope (Scope set)
         (principalFilter principalID);
       LogError e
         "failed to parse subscription ID from scope string to perform role name lookup"]
      (inl e).
Proof.
  intros Hname Hfriendly Hfetch Hparse. unfold processPermissionSet.
  by rewrite Hfetch, Hname, Hfriendly, Hparse.
Qed.

(** C7, as the code has it.  The scope of a permission set is parsed only
    when its role gives a friendly name and no canonical id.  For such a
    set, reached after the earlier sets went through and once its grants
    are fetched, a scope that does not parse is a hard error that ends the
    rule: the call returns that error with the optimistic result, and its
    calls are those of the earlier sets followed by this set's log line,
    fetch and error log; the later sets are not touched. *)
Theorem unparsable_scope_aborts_the_rule
    s rule pre set post failures friendly ras e :
  Permissions rule = pre ++ set :: post →
  outcome (processPermissions s (SecurityPrincipalID rule) 0 pre [])
  = inr failures →
  Name (SetRole set) = None →
  RoleName (SetRole set) = Some friendly →
  ListRoleAssignmentsForScope (rbac_api s) (Scope set)
    (principalFilter (SecurityPrincipalID rule)) = inr ras →
  RoleAssignmentScopeSubscription (Scope set) = inl e →
  ReconcileRBACRule s rule
  = mkReturned
      (trace (processPermissions s (SecurityPrincipalID rule) 0 pre [])
         ++ [LogInfo "Processing permission set of rule." "set #"
               (length pre + 1);
             CallListRoleAssignmentsForScope (Scope set)
               (principalFilter (SecurityPrincipalID rule));
             LogError e
               "failed to parse subscription ID from scope string to perform role name lookup"])
      (rbacSucceeded rule) (Some e).
Proof.
  intros Hperm Hpre Hname Hfriendly Hfetch Hparse.
  rewrite reconcileRBAC_unfold, Hperm, processSets_app. cbv zeta.
  rewrite outcome_bind, trace_bind, Hpre.
  cbn [processPermissions].
  rewrite (processSet_parse_failure _ _ _ _ _ _ _
             Hname Hfriendly Hfetch Hparse).
  reflexivity.
Qed.

(** *** Rule identifiers *)

(** C8, as the code has it.  Both current validators, the single-rule one
    and the multi-scope one, identify their result by the rule's principal
    identifier.  The label derived from the role reference (the friendly
    name if set, else the canonical id, else the placeholder
    "invalid-config") is what the earlier single-role validator uses, in
    [buildValidationResult]. *)
Theorem rule_identifier_derivation
    s rule t rbacRule (legacyRule : Legacy.ruleData) validationType :
  ValidationRule (Condition (result (ReconcileRoleAssignmentRule s rule)))
  = ValidationRulePrefix +:+ "-" +:+ ServicePrincipalID rule
  ∧ ValidationRule (Condition (result (ReconcileRBACRule t rbacRule)))
    = ValidationRulePrefix +:+ "-" +:+ SecurityPrincipalID rbacRule
  ∧ ValidationRule
      (Condition (Legacy.buildValidationResult legacyRule validationType))
    = ValidationRulePrefix +:+ "-"
        +:+ match RoleName (Legacy.role legacyRule) with
            | Some friendlyName => friendlyName
            | None =>
                match Name (Legacy.role legacyRule) with
                | Some canonicalID => canonicalID
                | None => "invalid-config"
                end
            end.
Proof.
  unfold ReconcileRoleAssignmentRule, ReconcileRBACRule. cbv zeta.
  repeat split.
  - destruct (outcome _) as [e|failures]; [done|].
    by destruct (decide (0 < length failures)).
  - destruct (outcome _) as [e|failures]; [done|].
    by destruct (decide (0 < length failures)).
Qed.

(** *** The error path *)

(** C10.  Whenever either current validator returns a non-nil error, the
    result returned with it is the optimistic one, untouched: state
    Succeeded, condition true, the success message, and no failures, also
    when earlier permission sets had already recorded failures. *)
Theorem error_leaves_result_optimistic s rule t rbacRule r :
  r = ReconcileRoleAssignmentRule s rule ∨ r = ReconcileRBACRule t rbacRule →
  err r ≠ None →
  (result r = roleAssignmentSucceeded rule ∨ result r = rbacSucceeded rbacRule)
  ∧ State (result r) = ValidationSucceeded
  ∧ Status (Condition (result r)) = ConditionTrue
  ∧ Failures (Condition (result r)) = []
  ∧ (Message (Condition (result r))
     = "Service principal has all required roles."
     ∨ Message (Condition (result r))
       = "Security principal has all required roles.").
Proof.
  intros [->| ->] Herr.
  - revert Herr. unfold ReconcileRoleAssignmentRule. cbv zeta.
    destruct (outcome _) as [e|failures]; cbn; [|done].
    intros _. repeat split; auto.
  - revert Herr. unfold ReconcileRBACRule. cbv zeta.
    destruct (outcome _) as [e|failures]; cbn; [|done].
    intros _. repeat split; auto.
Qed.

End Properties.

(** ** Further properties of the validators *)

Section Coverage.

Context `{!Externals}.

(** *** The grant set is all that counts *)

Lemma foundRoleNames_true ras k b :
  foundRoleNames ras !! k = Some b → b = true.
Proof.
  unfold foundRoleNames.
  assert (∀ (m : gmap string bool),
            (∀ k b, m !! k = Some b → b = true) →
            ∀ k b, fold_left recordRoleName ras m !! k = Some b → b = true)
    as Hfold.
  { induction ras as [|ra ras IH]; intros m Hm; [exact Hm|].
    cbn [fold_left]. apply IH. intros k' b'. unfold recordRoleName.
    destruct (Properties ra) as [props|]; [|apply Hm].
    destruct (RoleDefinitionID props) as [id|]; [|apply Hm].
    rewrite lookup_insert. case_decide; [congruence | apply Hm]. }
  apply Hfold. intros k' b'. by rewrite lookup_empty.
Qed.

Lemma foundRoleNames_same_set ras ras' :
  grantSet ras = grantSet ras' → foundRoleNames ras = foundRoleNames ras'.
Proof.
  intros Hset. apply map_eq. intros k.
  destruct (foundRoleNames ras !! k) as [b|] eqn:Hk;
    destruct (foundRoleNames ras' !! k) as [b'|] eqn:Hk'.
  - apply foundRoleNames_true in Hk as ->.
    by apply foundRoleNames_true in Hk' as ->.
  - apply foundRoleNames_absent in Hk'. exfalso. apply Hk'.
    rewrite <- Hset. apply foundRoleNames_grantSet. by rewrite Hk.
  - apply foundRoleNames_absent in Hk. exfalso. apply Hk.
    rewrite Hset. apply foundRoleNames_grantSet. by rewrite Hk'.
  - done.
Qed.

Lemma processSet_same_grants s s' set principalID failures :
  sameGrants
    (ListRoleAssignmentsForScope (rbac_api s) (Scope set)
       (principalFilter principalID))
    (ListRoleAssignmentsForScope (rbac_api s') (Scope set)
       (principalFilter principalID)) →
  (∀ sub, RoleAssignmentScopeSubscription (Scope set) = inr sub →
          rbac_getRoleLookupMap s sub = rbac_getRoleLookupMap s' sub) →
  processPermissionSet s set principalID failures
  = processPermissionSet s' set principalID failures.
Proof.
  intros Hsame Hlookup. unfold processPermissionSet.
  apply bind_ext. intros _.
  destruct (ListRoleAssignmentsForScope (rbac_api s) _ _) as [e|ras];
    destruct (ListRoleAssignmentsForScope (rbac_api s') _ _) as [e'|ras'];
    cbn in Hsame; try done.
  { by rewrite Hsame. }
  rewrite !bind_ret_l, (foundRoleNames_same_set _ _ Hsame). f_equal.
  destruct (Name (SetRole set)); [done|].
  destruct (RoleName (SetRole set)); [|done].
  destruct (RoleAssignmentScopeSubscription (Scope set)) as [e|sub];
    [done|].
  rewrite !bind_ret_l. by rewrite (Hlookup sub).
Qed.

(** X1.  A validator sees the fetched grants only through the set of role
    names they stand for: two services whose fetches fail alike or return
    sequences with the same grant set (the same grants in another order, with
    repetitions, or with malformed grants mixed in), and whose lookup tables
    agree, produce the same result, the same error and the same calls. *)
Theorem only_the_grant_set_counts s s' t t' rule rbacRule :
  sameGrants
    (ListRoleAssignmentsForSubscription (ra_api s) (SubscriptionID rule)
       (principalFilter (ServicePrincipalID rule)))
    (ListRoleAssignmentsForSubscription (ra_api s') (SubscriptionID rule)
       (principalFilter (ServicePrincipalID rule))) →
  ra_getRoleLookupMap s (SubscriptionID rule)
  = ra_getRoleLookupMap s' (SubscriptionID rule) →
  (∀ set, set ∈ Permissions rbacRule →
     sameGrants
       (ListRoleAssignmentsForScope (rbac_api t) (Scope set)
          (principalFilter (SecurityPrincipalID rbacRule)))
       (ListRoleAssignmentsForScope (rbac_api t') (Scope set)
          (principalFilter (SecurityPrincipalID rbacRule)))) →
  (∀ set sub, set ∈ Permissions rbacRule →
     RoleAssignmentScopeSubscription (Scope set) = inr sub →
     rbac_getRoleLookupMap t sub = rbac_getRoleLookupMap t' sub) →
  ReconcileRoleAssignmentRule s rule = ReconcileRoleAssignmentRule s' rule
  ∧ ReconcileRBACRule t rbacRule = ReconcileRBACRule t' rbacRule.
Proof.
  intros Hsame Hlookup Hsame2 Hlookup2. split.
  - unfold ReconcileRoleAssignmentRule.
    destruct (ListRoleAssignmentsForSubscription (ra_api s) _ _) as [e|ras];
      destruct (ListRoleAssignmentsForSubscription (ra_api s') _ _)
        as [e'|ras'];
      cbn in Hsame; try done.
    { by rewrite Hsame. }
    rewrite !bind_ret_l, (foundRoleNames_same_set _ _ Hsame).
    by rewrite (reconcileRoles_ext s s' _ _ _ _ Hlookup).
  - rewrite !reconcileRBAC_unfold.
    assert (∀ sets i failures,
      (∀ set, set ∈ sets → set ∈ Permissions rbacRule) →
      processPermissions t (SecurityPrincipalID rbacRule) i sets failures
      = processPermissions t' (SecurityPrincipalID rbacRule) i sets failures)
      as Heq.
    { induction sets as [|set rest IH]; intros i failures Hsub; [done|].
      cbn [processPermissions]. apply bind_ext. intros _.
      rewrite (processSet_same_grants t t').
      - apply bind_ext. intros failures'. apply IH.
        intros set' Hin. apply Hsub. by right.
      - apply Hsame2, Hsub. by left.
      - intros sub. apply Hlookup2, Hsub. by left. }
    by rewrite Heq.
Qed.

(** *** How many failures *)

Lemma missingRole_length ras label id :
  (length (missingRole ras label id) ≤ 1)%nat.
Proof. unfold missingRole. case_decide; cbn; lia. Qed.

Lemma reconcileRoles_length s rule ras roles failures failures' :
  outcome (reconcileRoles s rule (foundRoleNames ras) roles failures)
  = inr failures' →
  (length failures' ≤ length failures + length roles)%nat.
Proof.
  revert failures.
  induction roles as [|role rest IH]; intros failures.
  - cbn. intros [= <-]. lia.
  - rewrite reconcileRoles_step_outcome.
    destruct (specResolve _ _ role) as [e|id]; [done|].
    intros Hout. apply IH in Hout. rewrite length_app in Hout.
    pose proof (missingRole_length ras "Service principal missing role " id).
    cbn [length]. lia.
Qed.

Lemma processSets_length s principalID i sets failures failures' :
  outcome (processPermissions s principalID i sets failures) = inr failures' →
  (length failures' ≤ length failures + length sets)%nat.
Proof.
  revert i failures.
  induction sets as [|set rest IH]; intros i failures.
  - cbn. intros [= <-]. lia.
  - rewrite processSets_step_outcome, processSet_outcome.
    destruct (ListRoleAssignmentsForScope _ _ _) as [e|ras]; [done|].
    destruct (specResolveSet _ set) as [e|id]; [done|].
    intros Hout. apply IH in Hout. rewrite length_app in Hout.
    pose proof (missingRole_length ras "Security principal missing role " id).
    cbn [length]. lia.
Qed.

(** X2.  A result never holds more failures than the rule has desired roles
    (single-rule validator) or permission sets (multi-scope validator),
    whatever the collaborators answer. *)
Theorem failures_are_bounded_by_the_rule s rule t rbacRule :
  (length (Failures (Condition (result (ReconcileRoleAssignmentRule s rule))))
   ≤ length (Roles rule))%nat
  ∧ (length (Failures (Condition (result (ReconcileRBACRule t rbacRule))))
     ≤ length (Permissions rbacRule))%nat.
Proof.
  split.
  - unfold ReconcileRoleAssignmentRule. cbv zeta.
    destruct (ListRoleAssignmentsForSubscription _ _ _) as [e|ras].
    + cbn. lia.
    + rewrite bind_ret_l, outcome_emit_then.
      destruct (outcome (reconcileRoles _ _ _ _ _)) as [e|failures] eqn:Hout.
      * cbn. lia.
      * apply reconcileRoles_length in Hout. cbn in Hout.
        case_decide; cbn; lia.
  - rewrite reconcileRBAC_unfold. cbv zeta.
    destruct (outcome (processPermissions _ _ _ _ _)) as [e|failures]
      eqn:Hout.
    + cbn. lia.
    + apply processSets_length in Hout. cbn in Hout.
      case_decide; cbn; lia.
Qed.

(** *** More grants, fewer failures *)

Lemma missingRole_antitone ras ras' label id :
  grantSet ras ⊆ grantSet ras' →
  sublist (missingRole ras' label id) (missingRole ras label id).
Proof.
  intros Hsub. unfold missingRole.
  destruct (decide (id ∈ grantSet ras)) as [Hin|Hin].
  - rewrite decide_True by (by apply Hsub). constructor.
  - case_decide; [apply sublist_nil_l | done].
Qed.

Lemma reconcileRoles_antitone s rule ras ras' roles failures failures' :
  grantSet ras ⊆ grantSet ras' →
  sublist failures' failures →
  match outcome (reconcileRoles s rule (foundRoleNames ras) roles failures),
        outcome (reconcileRoles s rule (foundRoleNames ras') roles failures')
  with
  | inl e, inl e' => e = e'
  | inr f, inr f' => sublist f' f
  | _, _ => False
  end.
Proof.
  intros Hsub. revert failures failures'.
  induction roles as [|role rest IH]; intros failures failures' Hfail.
  - done.
  - rewrite !reconcileRoles_step_outcome.
    destruct (specResolve _ _ role) as [e|id]; [done|].
    apply IH. apply sublist_app; [done|]. by apply missingRole_antitone.
Qed.

(** X3.  Granting more never adds a failure: when a second service fetches
    a sequence whose grant set includes that of the first, with the same
    lookup table, it returns the same error, its failures are a sublist of
    the first service's, and a rule the first finds satisfied stays
    satisfied. *)
Theorem more_grants_fewer_failures s s' rule ras ras' :
  ListRoleAssignmentsForSubscription (ra_api s) (SubscriptionID rule)
    (principalFilter (ServicePrincipalID rule)) = inr ras →
  ListRoleAssignmentsForSubscription (ra_api s') (SubscriptionID rule)
    (principalFilter (ServicePrincipalID rule)) = inr ras' →
  grantSet ras ⊆ grantSet ras' →
  ra_getRoleLookupMap s (SubscriptionID rule)
  = ra_getRoleLookupMap s' (SubscriptionID rule) →
  err (ReconcileRoleAssignmentRule s' rule)
  = err (ReconcileRoleAssignmentRule s rule)
  ∧ sublist
      (Failures (Condition (result (ReconcileRoleAssignmentRule s' rule))))
      (Failures (Condition (result (ReconcileRoleAssignmentRule s rule))))
  ∧ (State (result (ReconcileRoleAssignmentRule s rule)) = ValidationSucceeded
     → State (result (ReconcileRoleAssignmentRule s' rule))
       = ValidationSucceeded).
Proof.
  intros Hfetch Hfetch' Hsub Hlookup.
  rewrite (reconcileRA_fetched _ _ _ Hfetch), (reconcileRA_fetched _ _ _ Hfetch').
  cbv zeta.
  rewrite <- (reconcileRoles_ext s s' _ _ _ _ Hlookup).
  pose proof (reconcileRoles_antitone s rule ras ras' (Roles rule) [] []
                Hsub (sublist_nil_l [])) as Hanti.
  destruct (outcome (reconcileRoles s rule (foundRoleNames ras) _ _))
    as [e|f];
    destruct (outcome (reconcileRoles s rule (foundRoleNames ras') _ _))
      as [e'|f']; try done.
  { cbn. by subst. }
  destruct f as [|y f], f' as [|x f']; cbn;
    repeat split; try done; try apply sublist_nil_l.
  by apply sublist_nil_r in Hanti.
Qed.

(** *** Where a rule stops *)

Lemma reconcileRoles_app s rule fnd pre rest failures :
  reconcileRoles s rule fnd (pre ++ rest) failures
  = (reconcileRoles s rule fnd pre failures
       ≫= reconcileRoles s rule fnd rest).
Proof.
  revert failures. induction pre as [|role pre IH]; intros failures.
  - cbn [app reconcileRoles]. by rewrite bind_ret_l.
  - cbn [app reconcileRoles]. rewrite bind_assoc.
    apply bind_ext. intros roleName. apply IH.
Qed.

Lemma reconcileRoles_same_subscription s rule rule' fnd roles failures :
  SubscriptionID rule = SubscriptionID rule' →
  reconcileRoles s rule fnd roles failures
  = reconcileRoles s rule' fnd roles failures.
Proof.
  intros Hsub. revert failures.
  induction roles as [|role rest IH]; intros failures; [done|].
  cbn [reconcileRoles]. rewrite <- Hsub.
  apply bind_ext. intros roleName. apply IH.
Qed.

(** At a role that does not resolve the loop ends, whatever follows. *)
Lemma reconcileRoles_stops s rule fnd role post failures e :
  specResolve (ra_getRoleLookupMap s) (SubscriptionID rule) role = inl e →
  reconcileRoles s rule fnd (role :: post) failures
  = reconcileRoles s rule fnd [role] failures
  ∧ outcome (reconcileRoles s rule fnd [role] failures) = inl e.
Proof.
  unfold specResolve. cbn [reconcileRoles]. intros Hres.
  destruct (Name role) as [name|]; [done|].
  destruct (RoleName role) as [friendly|].
  - destruct (ra_getRoleLookupMap s (SubscriptionID rule)) as [e'|table].
    + injection Hres as ->. done.
    + destruct (table !! friendly) as [canonical|] eqn:Hk; [done|].
      injection Hres as <-.
      unfold mbind, Eff_bind, mret, Eff_ret, emit, throw. cbn.
      by rewrite Hk.
  - injection Hres as <-. done.
Qed.

(** X4.  The error of a single-scope rule is that of the first desired role
    that does not resolve: when the roles before it resolve, the call
    returns exactly the resolver's error for it (the provider's own error,
    or one of the two sentinels) with the optimistic result, and the roles
    after it are not examined; the call is the same as on the rule cut
    after that role. *)
Theorem first_unresolvable_role_decides s rule ras pre role post ids e :
  ListRoleAssignmentsForSubscription (ra_api s) (SubscriptionID rule)
    (principalFilter (ServicePrincipalID rule)) = inr ras →
  Roles rule = pre ++ role :: post →
  Forall2
    (λ role' id,
       specResolve (ra_getRoleLookupMap s) (SubscriptionID rule) role'
       = inr id)
    pre ids →
  specResolve (ra_getRoleLookupMap s) (SubscriptionID rule) role = inl e →
  err (ReconcileRoleAssignmentRule s rule) = Some e
  ∧ result (ReconcileRoleAssignmentRule s rule) = roleAssignmentSucceeded rule
  ∧ ReconcileRoleAssignmentRule s rule
    = ReconcileRoleAssignmentRule s
        (mkRoleAssignmentRule (pre ++ [role]) (ServicePrincipalID rule)
           (SubscriptionID rule)).
Proof.
  intros Hfetch Hroles Hpre Hres.
  assert (reconcileRoles s rule (foundRoleNames ras) (Roles rule) []
          = reconcileRoles s rule (foundRoleNames ras) (pre ++ [role]) [])
    as Hcut.
  { rewrite Hroles, !reconcileRoles_app. apply bind_ext. intros failures.
    by apply (reconcileRoles_stops s rule _ role post failures e). }
  assert (outcome (reconcileRoles s rule (foundRoleNames ras) (Roles rule) [])
          = inl e) as Hout.
  { rewrite Hcut, reconcileRoles_app, outcome_bind.
    rewrite (reconcileRoles_resolved _ _ _ _ _ _ Hpre).
    by apply (reconcileRoles_stops s rule _ role [] _ e). }
  rewrite (reconcileRA_fetched _ _ _ Hfetch). cbv zeta. rewrite Hout.
  split; [done|]. split; [done|].
  rewrite (reconcileRA_fetched s (mkRoleAssignmentRule _ _ _) ras)
    by exact Hfetch.
  cbv zeta. cbn [Roles SubscriptionID ServicePrincipalID].
  rewrite (reconcileRoles_same_subscription s
             (mkRoleAssignmentRule (pre ++ [role]) (ServicePrincipalID rule)
                (SubscriptionID rule))
             rule) by done.
  by rewrite <- Hcut, Hout.
Qed.

(** X5.  A fetch that fails is a hard error in both validators, reported
    differently: the single-rule validator logs the facade's error and
    returns it as it is, before looking at any role; the multi-scope
    validator, at the set where the fetch fails, returns it wrapped with
    "failed to get role assignments" and logs nothing, whatever the set's
    role is, and the sets after it are not touched.  Both return the
    optimistic result. *)
Theorem fetch_failure_is_a_hard_error
    s rule e t rbacRule pre set post failures e2 :
  ListRoleAssignmentsForSubscription (ra_api s) (SubscriptionID rule)
    (principalFilter (ServicePrincipalID rule)) = inl e →
  Permissions rbacRule = pre ++ set :: post →
  outcome (processPermissions t (SecurityPrincipalID rbacRule) 0 pre [])
  = inr failures →
  ListRoleAssignmentsForScope (rbac_api t) (Scope set)
    (principalFilter (SecurityPrincipalID rbacRule)) = inl e2 →
  ReconcileRoleAssignmentRule s rule
  = mkReturned
      [CallListRoleAssignmentsForSubscription (SubscriptionID rule)
         (principalFilter (ServicePrincipalID rule));
       LogError e "failed to get role assignments"]
      (roleAssignmentSucceeded rule) (Some e)
  ∧ ReconcileRBACRule t rbacRule
    = mkReturned
        (trace (processPermissions t (SecurityPrincipalID rbacRule) 0 pre [])
           ++ [LogInfo "Processing permission set of rule." "set #"
                 (length pre + 1);
               CallListRoleAssignmentsForScope (Scope set)
                 (principalFilter (SecurityPrincipalID rbacRule))])
        (rbacSucceeded rbacRule)
        (Some (errWrap "failed to get role assignments" e2)).
Proof.
  intros Hfetch Hperm Hpre Hfetch2. split.
  - unfold ReconcileRoleAssignmentRule. by rewrite Hfetch.
  - rewrite reconcileRBAC_unfold, Hperm, processSets_app. cbv zeta.
    rewrite outcome_bind, trace_bind, Hpre.
    cbn [processPermissions]. unfold processPermissionSet.
    by rewrite Hfetch2.
Qed.

(** *** The calls of a rule that goes through *)

Lemma reconcileRoles_step_trace s rule ras role rest failures id :
  specResolve (ra_getRoleLookupMap s) (SubscriptionID rule) role = inr id →
  trace (reconcileRoles s rule (foundRoleNames ras) (role :: rest) failures)
  = (if needsLookup role then [CallGetRoleLookupMap (SubscriptionID rule)]
     else [])
    ++ trace (reconcileRoles s rule (foundRoleNames ras) rest
                (failures
                   ++ missingRole ras "Service principal missing role " id)).
Proof.
  unfold specResolve, needsLookup. cbn [reconcileRoles]. intros Hres.
  destruct (Name role) as [name|].
  { injection Hres as ->. by rewrite bind_ret_l, check_found. }
  destruct (RoleName role) as [friendly|]; [|done].
  destruct (ra_getRoleLookupMap s (SubscriptionID rule)) as [e|table];
    [done|].
  destruct (table !! friendly) as [canonical|] eqn:Hk; [|done].
  injection Hres as ->.
  unfold mbind, Eff_bind, mret, Eff_ret, emit. cbn.
  rewrite Hk. cbn. by rewrite check_found.
Qed.

Lemma reconcileRoles_resolved_trace s rule ras roles ids failures :
  Forall2
    (λ role id,
       specResolve (ra_getRoleLookupMap s) (SubscriptionID rule) role
       = inr id)
    roles ids →
  trace (reconcileRoles s rule (foundRoleNames ras) roles failures)
  = (λ _, CallGetRoleLookupMap (SubscriptionID rule))
      <$> filter (λ role, needsLookup role = true) roles.
Proof.
  intros Hall. revert failures.
  induction Hall as [|role id roles ids Hres _ IH]; intros failures; [done|].
  rewrite (reconcileRoles_step_trace _ _ _ _ _ _ _ Hres), IH, filter_cons.
  by destruct (needsLookup role).
Qed.

(** X6.  When the fetch answers and every desired role resolves, the
    single-rule validator makes the one fetch first and then asks the
    provider for the lookup table once for each desired role that gives a
    friendly name only, every time for the rule's subscription: the table
    is not kept from one role to the next, and roles that carry a canonical
    id cause no call. *)
Theorem lookup_table_is_requested_per_role s rule ras ids :
  ListRoleAssignmentsForSubscription (ra_api s) (SubscriptionID rule)
    (principalFilter (ServicePrincipalID rule)) = inr ras →
  Forall2
    (λ role id,
       specResolve (ra_getRoleLookupMap s) (SubscriptionID rule) role
       = inr id)
    (Roles rule) ids →
  calls (ReconcileRoleAssignmentRule s rule)
  = CallListRoleAssignmentsForSubscription (SubscriptionID rule)
      (principalFilter (ServicePrincipalID rule))
    :: ((λ _, CallGetRoleLookupMap (SubscriptionID rule))
          <$> filter (λ role, needsLookup role = true) (Roles rule)).
Proof.
  intros Hfetch Hall.
  rewrite (reconcileRA_fetched _ _ _ Hfetch). cbv zeta.
  rewrite (reconcileRoles_resolved _ _ _ _ _ _ Hall).
  by rewrite (reconcileRoles_resolved_trace _ _ _ _ _ _ Hall).
Qed.

Lemma processSet_resolved_trace s set principalID failures ras id :
  ListRoleAssignmentsForScope (rbac_api s) (Scope set)
    (principalFilter principalID) = inr ras →
  specResolveSet (rbac_getRoleLookupMap s) set = inr id →
  trace (processPermissionSet s set principalID failures)
  = tail (setCalls principalID 0 set).
Proof.
  unfold processPermissionSet, specResolveSet, specResolve, setCalls,
    needsLookup.
  intros Hfetch Hres. rewrite Hfetch, bind_ret_l. cbn [tail].
  destruct (Name (SetRole set)) as [name|]; [done|].
  destruct (RoleName (SetRole set)) as [friendly|]; [|done].
  destruct (RoleAssignmentScopeSubscription (Scope set)) as [e|sub];
    [done|].
  rewrite bind_ret_l.
  destruct (rbac_getRoleLookupMap s sub) as [e|table]; [done|].
  rewrite bind_ret_l.
  by destruct (table !! friendly) as [canonical|].
Qed.

Lemma processSets_step_trace s principalID i set rest failures :
  trace (processPermissions s principalID i (set :: rest) failures)
  = LogInfo "Processing permission set of rule." "set #" (i + 1)
    :: trace (processPermissionSet s set principalID failures)
    ++ match outcome (processPermissionSet s set principalID failures) with
       | inl _ => []
       | inr failures' =>
           trace (processPermissions s principalID (S i) rest failures')
       end.
Proof.
  cbn [processPermissions].
  set (m := processPermissionSet s set principalID failures).
  unfold mbind, Eff_bind, emit. cbn [trace outcome app].
  destruct (outcome m); cbn [trace outcome app]; [by rewrite app_nil_r|done].
Qed.

Lemma processSets_resolved_trace s principalID i sets per failures :
  Forall2
    (λ set fetched,
       ListRoleAssignmentsForScope (rbac_api s) (Scope set)
         (principalFilter principalID) = inr fetched.1
       ∧ specResolveSet (rbac_getRoleLookupMap s) set = inr fetched.2)
    sets per →
  trace (processPermissions s principalID i sets failures)
  = concat (imap (λ j, setCalls principalID (i + j)) sets).
Proof.
  intros Hall. revert i failures.
  induction Hall as [|set fetched sets per [Hfetch Hres] _ IH];
    intros i failures; [done|].
  rewrite processSets_step_trace, processSet_outcome, Hfetch, Hres, IH.
  rewrite (processSet_resolved_trace s set principalID failures _ _
             Hfetch Hres).
  cbn [imap concat]. rewrite Nat.add_0_r.
  change (setCalls principalID i set)
    with (LogInfo "Processing permission set of rule." "set #" (i + 1)
          :: tail (setCalls principalID 0 set)).
  cbn [app]. do 3 f_equal.
  apply imap_ext. intros j set' _. cbn.
  by rewrite Nat.add_succ_r.
Qed.

(** X7.  When every permission set of a multi-scope rule is fetched and
    resolved, the calls of the rule are, set by set and in the order of the
    sets: a log line numbering the set from 1, one fetch at the set's own
    scope, and, only for a role with a friendly name and no id, one request
    for the lookup table of the subscription parsed from that scope. *)
Theorem multi_scope_calls_set_by_set s rule per :
  Forall2
    (λ set fetched,
       ListRoleAssignmentsForScope (rbac_api s) (Scope set)
         (principalFilter (SecurityPrincipalID rule)) = inr fetched.1
       ∧ specResolveSet (rbac_getRoleLookupMap s) set = inr fetched.2)
    (Permissions rule) per →
  calls (ReconcileRBACRule s rule)
  = concat (imap (setCalls (SecurityPrincipalID rule)) (Permissions rule)).
Proof.
  intros Hall. rewrite reconcileRBAC_unfold. cbv zeta.
  rewrite (processSets_resolved _ _ _ _ _ _ Hall).
  by rewrite (processSets_resolved_trace _ _ _ _ _ _ Hall).
Qed.

(** X8.  Whatever the collaborators answer, the fields a validator never
    writes after building its result keep their first value: the validation
    type is the validator's own constant, the details are those of the
    default condition, and the time is the clock reading taken at the
    start. *)
Theorem untouched_fields_keep_their_value s rule t rbacRule :
  let c := Condition (result (ReconcileRoleAssignmentRule s rule)) in
  let c2 := Condition (result (ReconcileRBACRule t rbacRule)) in
  ValidationType c = ValidationTypeRoleAssignment
  ∧ Details c = Details (DefaultValidationCondition now)
  ∧ LastValidationTime c = now
  ∧ ValidationType c2 = ValidationTypeRBAC
  ∧ Details c2 = Details (DefaultValidationCondition now)
  ∧ LastValidationTime c2 = now.
Proof.
  cbv zeta. unfold ReconcileRoleAssignmentRule, ReconcileRBACRule.
  cbv zeta.
  match goal with
  | |- context [outcome ?b] => destruct (outcome b) as [e|failures]
  end;
  match goal with
  | |- context [outcome ?b] => destruct (outcome b) as [e2|failures2]
  end;
  repeat case_decide; repeat split.
Qed.

End Coverage.

(** ** Properties of the earlier validator *)

Section LegacyCoverage.

Context `{!Externals} `{!Legacy.LegacyExternals}.
Context {R : Type} `{!Legacy.roleAssignmentRule R}.

Lemma bind_value {A B} (t : list Event) (a : A) (k : A -> Eff B) :
  (mkEff t (inr a) ≫= k) = mkEff (t ++ trace (k a)) (outcome (k a)).
Proof. reflexivity. Qed.

Lemma bind_error {A B} (t : list Event) (e : error) (k : A -> Eff B) :
  (mkEff t (inl e) ≫= k) = mkEff t (inl e).
Proof. reflexivity. Qed.

(** *** The pager *)

Lemma drainPager_all pager acc :
  Forall (λ page, ∃ value, page = inr value) pager →
  Legacy.drainPager pager acc
  = mkEff (replicate (length pager) CallNextPage)
      (inr (acc ++ concat (pageValue <$> pager))).
Proof.
  intros Hall. revert acc.
  induction Hall as [|page pager [value ->] _ IH]; intros acc.
  - cbn. by rewrite app_nil_r.
  - cbn [Legacy.drainPager length replicate fmap list_fmap concat pageValue].
    destruct value as [value|]; rewrite IH.
    + cbn. by rewrite app_assoc.
    + done.
Qed.

Lemma drainPager_fails pre e post acc :
  Forall (λ page, ∃ value, page = inr value) pre →
  Legacy.drainPager (pre ++ inl e :: post) acc
  = mkEff (replicate (S (length pre)) CallNextPage)
      (inl (errWrap
              "failed to retrieve next page of role assignment results from pager"
              e)).
Proof.
  intros Hall. revert acc.
  induction Hall as [|page pre [value ->] _ IH]; intros acc; [done|].
  cbn [app Legacy.drainPager length replicate].
  destruct value as [value|]; by rewrite IH.
Qed.

(** The filter the earlier validator sends. *)
Lemma legacy_filter (rule : R) :
  QueryEscape ("principalId eq '" +:+ Legacy.GetServicePrincipalID rule +:+ "'")
  = principalFilter (Legacy.GetServicePrincipalID rule).
Proof. reflexivity. Qed.

(** X9.  A page that fails ends the call: the earlier validator returns no
    result and the page's error wrapped with "failed to retrieve next page
    of role assignment results from pager"; the pages after it are not
    requested, the grants of the pages before it are dropped, and the role
    is not resolved (no lookup table is requested). *)
Theorem failed_page_ends_the_call s (rule : R) pre e post :
  Legacy.NewListForSubscriptionPager (Legacy.api s)
    (principalFilter (Legacy.GetServicePrincipalID rule))
  = pre ++ inl e :: post →
  Forall (λ page, ∃ value, page = inr value) pre →
  Legacy.ReconcileRoleAssignmentRule s rule
  = mkReturned
      (CallNewListForSubscriptionPager
         (principalFilter (Legacy.GetServicePrincipalID rule))
       :: replicate (S (length pre)) CallNextPage)
      None
      (Some (errWrap
               "failed to retrieve next page of role assignment results from pager"
               e)).
Proof.
  intros Hpager Hpre. unfold Legacy.ReconcileRoleAssignmentRule.
  rewrite legacy_filter, Hpager, (drainPager_fails _ _ _ _ Hpre).
  reflexivity.
Qed.

(** X10.  When the pages hold no grant at all, the earlier validator
    returns a Failed result with a nil error and the message "No role
    assignments found.", whatever the rule's role is (also an unknown
    friendly name or a role with neither field): the role is not resolved,
    no lookup table is requested, and the result is built from a fresh
    default condition, so it carries the default's rule identifier and
    validation type, not the rule's. *)
Theorem no_grants_is_a_failed_result s (rule : R) pager :
  Legacy.NewListForSubscriptionPager (Legacy.api s)
    (principalFilter (Legacy.GetServicePrincipalID rule)) = pager →
  Forall (λ page, ∃ value, page = inr value) pager →
  concat (pageValue <$> pager) = [] →
  Legacy.ReconcileRoleAssignmentRule s rule
  = mkReturned
      (CallNewListForSubscriptionPager
         (principalFilter (Legacy.GetServicePrincipalID rule))
       :: replicate (length pager) CallNextPage)
      (Some
         {| Condition :=
              {| ValidationType :=
                   ValidationType
                     (DefaultValidationCondition Legacy.nowIfNoneFound);
                 ValidationRule :=
                   ValidationRule
                     (DefaultValidationCondition Legacy.nowIfNoneFound);
                 Message := "No role assignments found.";
                 Details :=
                   Details (DefaultValidationCondition Legacy.nowIfNoneFound);
                 Failures :=
                   Failures (DefaultValidationCondition Legacy.nowIfNoneFound);
                 Status := ConditionFalse;
                 LastValidationTime := Legacy.nowIfNoneFound |};
            State := ValidationFailed |})
      None.
Proof.
  intros Hpager Hall Hnone. unfold Legacy.ReconcileRoleAssignmentRule.
  rewrite legacy_filter, Hpager, (drainPager_all _ _ Hall), Hnone.
  cbn [app]. rewrite bind_value. cbn [length]. 
  rewrite decide_True by done. cbn. by rewrite app_nil_r.
Qed.

(** X11.  How the grants are split into pages does not matter: when no page
    fails, the earlier validator returns the same result and the same error
    as on a pager that hands out all the grants, in the same order, in one
    page (pages with a nil value adding nothing). *)
Theorem paging_does_not_matter s s' (rule : R) pager :
  Legacy.NewListForSubscriptionPager (Legacy.api s)
    (principalFilter (Legacy.GetServicePrincipalID rule)) = pager →
  Forall (λ page, ∃ value, page = inr value) pager →
  Legacy.NewListForSubscriptionPager (Legacy.api s')
    (principalFilter (Legacy.GetServicePrincipalID rule))
  = [inr (Some (concat (pageValue <$> pager)))] →
  result (Legacy.ReconcileRoleAssignmentRule s rule)
  = result (Legacy.ReconcileRoleAssignmentRule s' rule)
  ∧ err (Legacy.ReconcileRoleAssignmentRule s rule)
    = err (Legacy.ReconcileRoleAssignmentRule s' rule).
Proof.
  intros Hpager Hall Hpager'. unfold Legacy.ReconcileRoleAssignmentRule.
  rewrite legacy_filter, Hpager, Hpager', (drainPager_all _ _ Hall).
  rewrite (drainPager_all [inr (Some _)] [])
    by (repeat constructor; eauto).
  cbn [fmap list_fmap pageValue concat app length replicate].
  rewrite app_nil_r, !bind_value. cbn [outcome].
  by destruct (outcome _).
Qed.

(** *** The scan of the grants *)

Lemma scan_other pre rest name :
  Forall (λ ra, ∃ r, grantRole ra = Some r ∧ r ≠ name) pre →
  Legacy.scanRoleAssignments (pre ++ rest) name
  = Legacy.scanRoleAssignments rest name.
Proof.
  induction 1 as [|ra pre (r & Hr & Hne) _ IH]; [done|].
  cbn [app Legacy.scanRoleAssignments]. unfold grantRole in Hr.
  destruct (Properties ra) as [props|]; [|done].
  destruct (RoleDefinitionID props) as [id|]; [|done].
  injection Hr as <-. by rewrite decide_False.
Qed.

Lemma scan_match ra post name :
  grantRole ra = Some name →
  Legacy.scanRoleAssignments (ra :: post) name = inr true.
Proof.
  unfold grantRole. cbn [Legacy.scanRoleAssignments].
  destruct (Properties ra) as [props|]; [|done].
  destruct (RoleDefinitionID props) as [id|]; [|done].
  intros [= <-]. by rewrite decide_True.
Qed.

Lemma scan_malformed ra post name :
  wellFormed ra = false →
  Legacy.scanRoleAssignments (ra :: post) name = inl errMalformedResponse.
Proof.
  unfold wellFormed. cbn [Legacy.scanRoleAssignments].
  destruct (Properties ra) as [props|]; [|done].
  by destruct (RoleDefinitionID props).
Qed.

(** What the earlier validator returns once the pages are read, some grant
    was found and the role has resolved to [name]. *)
Lemma legacy_scanned s (rule : R) pager name :
  Legacy.NewListForSubscriptionPager (Legacy.api s)
    (principalFilter (Legacy.GetServicePrincipalID rule)) = pager →
  Forall (λ page, ∃ value, page = inr value) pager →
  concat (pageValue <$> pager) ≠ [] →
  specResolve Legacy.BuiltInRoleLookupMap (Legacy.GetSubscriptionID rule)
    (Legacy.GetRole rule) = inr name →
  result (Legacy.ReconcileRoleAssignmentRule s rule)
  = match Legacy.scanRoleAssignments (concat (pageValue <$> pager)) name with
    | inl _ => None
    | inr true =>
        Some (Legacy.buildValidationResult rule ValidationTypeRoleAssignment)
    | inr false =>
        Some (Legacy.failValidationResult
                (Legacy.buildValidationResult rule
                   ValidationTypeRoleAssignment)
                rule ValidationTypeRoleAssignment
                "Desired role assignment not found."
                [ "specified role name of role? "
                    +:+ Legacy.fmtBool
                          (Legacy.isSome (RoleName (Legacy.GetRole rule)));
                  "specified name of role? "
                    +:+ Legacy.fmtBool
                          (Legacy.isSome (Name (Legacy.GetRole rule)));
                  "specified service principal ID = "
                    +:+ Legacy.GoQuote (Legacy.GetServicePrincipalID rule);
                  "specified subscription ID = "
                    +:+ Legacy.GoQuote (Legacy.GetSubscriptionID rule) ])
    end
  ∧ err (Legacy.ReconcileRoleAssignmentRule s rule)
    = match Legacy.scanRoleAssignments (concat (pageValue <$> pager)) name
      with
      | inl e => Some e
      | inr _ => None
      end.
Proof.
  intros Hpager Hall Hsome Hres. unfold Legacy.ReconcileRoleAssignmentRule.
  rewrite legacy_filter, Hpager, (drainPager_all _ _ Hall).
  cbn [app]. rewrite bind_value.
  rewrite decide_False by (by destruct (concat _)).
  unfold specResolve in Hres.
  destruct (Name (Legacy.GetRole rule)) as [n|].
  { injection Hres as ->. rewrite bind_ret_l.
    destruct (Legacy.scanRoleAssignments _ name) as [e|[|]];
      split; reflexivity. }
  destruct (RoleName (Legacy.GetRole rule)) as [friendly|]; [|done].
  destruct (Legacy.BuiltInRoleLookupMap _) as [e|table]; [done|].
  rewrite bind_ret_l.
  destruct (table !! friendly) as [canonical|]; [|done].
  injection Hres as ->.
  unfold emit, mret, Eff_ret, mbind, Eff_bind. cbn [trace outcome app].
  destruct (Legacy.scanRoleAssignments _ name) as [e|[|]];
    split; reflexivity.
Qed.


Lemma scan_wellFormed ras name :
  Forall (λ ra, wellFormed ra = true) ras →
  Legacy.scanRoleAssignments ras name
  = inr (bool_decide (name ∈ grantSet ras)).
Proof.
  induction 1 as [|ra ras Hwf _ IH]; [done|].
  unfold wellFormed in Hwf. cbn [Legacy.scanRoleAssignments].
  destruct (Properties ra) as [props|] eqn:Hp; [|done].
  destruct (RoleDefinitionID props) as [id|] eqn:Hid; [|done].
  assert (grantSet (ra :: ras)
          = {[RoleNameFromRoleDefinitionID id]} ∪ grantSet ras) as ->.
  { unfold grantSet. cbn [omap list_omap]. unfold grantRole at 1.
    by rewrite Hp, Hid. }
  destruct (decide (RoleNameFromRoleDefinitionID id = name)) as [Heq|Heq].
  - f_equal. symmetry. apply bool_decide_eq_true_2.
    by apply elem_of_union_l, elem_of_singleton.
  - rewrite IH. f_equal. apply bool_decide_ext.
    rewrite elem_of_union, elem_of_singleton.
    split; [auto | intros [?|?]; [congruence | done]].
Qed.

(** X12.  The earlier validator stops at the first grant that carries the
    desired role: when the grants before it are well formed and carry other
    roles, it returns the Succeeded result of [buildValidationResult] with a
    nil error, whatever follows that grant; a malformed grant after the
    match is never looked at. *)
Theorem first_matching_grant_decides s (rule : R) pager name pre ra post :
  Legacy.NewListForSubscriptionPager (Legacy.api s)
    (principalFilter (Legacy.GetServicePrincipalID rule)) = pager →
  Forall (λ page, ∃ value, page = inr value) pager →
  concat (pageValue <$> pager) = pre ++ ra :: post →
  Forall (λ ra, ∃ r, grantRole ra = Some r ∧ r ≠ name) pre →
  grantRole ra = Some name →
  specResolve Legacy.BuiltInRoleLookupMap (Legacy.GetSubscriptionID rule)
    (Legacy.GetRole rule) = inr name →
  result (Legacy.ReconcileRoleAssignmentRule s rule)
  = Some (Legacy.buildValidationResult rule ValidationTypeRoleAssignment)
  ∧ err (Legacy.ReconcileRoleAssignmentRule s rule) = None.
Proof.
  intros Hpager Hall Hgrants Hpre Hra Hres.
  assert (concat (pageValue <$> pager) ≠ []) as Hsome.
  { rewrite Hgrants. by destruct pre. }
  destruct (legacy_scanned _ _ _ _ Hpager Hall Hsome Hres) as [-> ->].
  by rewrite Hgrants, (scan_other _ _ _ Hpre), (scan_match _ _ _ Hra).
Qed.

(** X13.  A malformed grant met before any grant with the desired role makes
    the earlier validator return a nil result and the error "data from Azure
    API response malformed; missing Properties.RoleDefinitionID", also when
    a later grant carries the desired role. *)
Theorem malformed_grant_before_a_match_is_an_error
    s (rule : R) pager name pre ra post :
  Legacy.NewListForSubscriptionPager (Legacy.api s)
    (principalFilter (Legacy.GetServicePrincipalID rule)) = pager →
  Forall (λ page, ∃ value, page = inr value) pager →
  concat (pageValue <$> pager) = pre ++ ra :: post →
  Forall (λ ra, ∃ r, grantRole ra = Some r ∧ r ≠ name) pre →
  wellFormed ra = false →
  specResolve Legacy.BuiltInRoleLookupMap (Legacy.GetSubscriptionID rule)
    (Legacy.GetRole rule) = inr name →
  result (Legacy.ReconcileRoleAssignmentRule s rule) = None
  ∧ err (Legacy.ReconcileRoleAssignmentRule s rule)
    = Some errMalformedResponse.
Proof.
  intros Hpager Hall Hgrants Hpre Hra Hres.
  assert (concat (pageValue <$> pager) ≠ []) as Hsome.
  { rewrite Hgrants. by destruct pre. }
  destruct (legacy_scanned _ _ _ _ Hpager Hall Hsome Hres) as [-> ->].
  by rewrite Hgrants, (scan_other _ _ _ Hpre), (scan_malformed _ _ _ Hra).
Qed.

(** X14.  On grants that are all well formed (and not empty), the earlier
    validator checks membership in the grant set: with a role that resolves
    it returns a nil error and the Succeeded result when the resolved name
    is in the grant set, and otherwise the Failed result with the message
    "Desired role assignment not found." and four details: whether the
    friendly name and the canonical id were given, and the quoted principal
    and subscription ids. *)
Theorem earlier_validator_checks_membership s (rule : R) pager name :
  Legacy.NewListForSubscriptionPager (Legacy.api s)
    (principalFilter (Legacy.GetServicePrincipalID rule)) = pager →
  Forall (λ page, ∃ value, page = inr value) pager →
  concat (pageValue <$> pager) ≠ [] →
  Forall (λ ra, wellFormed ra = true) (concat (pageValue <$> pager)) →
  specResolve Legacy.BuiltInRoleLookupMap (Legacy.GetSubscriptionID rule)
    (Legacy.GetRole rule) = inr name →
  err (Legacy.ReconcileRoleAssignmentRule s rule) = None
  ∧ result (Legacy.ReconcileRoleAssignmentRule s rule)
    = Some
        (if decide (name ∈ grantSet (concat (pageValue <$> pager))) then
           Legacy.buildValidationResult rule ValidationTypeRoleAssignment
         else
           Legacy.failValidationResult
             (Legacy.buildValidationResult rule ValidationTypeRoleAssignment)
             rule ValidationTypeRoleAssignment
             "Desired role assignment not found."
             [ "specified role name of role? "
                 +:+ Legacy.fmtBool
                       (Legacy.isSome (RoleName (Legacy.GetRole rule)));
               "specified name of role? "
                 +:+ Legacy.fmtBool
                       (Legacy.isSome (Name (Legacy.GetRole rule)));
               "specified service principal ID = "
                 +:+ Legacy.GoQuote (Legacy.GetServicePrincipalID rule);
               "specified subscription ID = "
                 +:+ Legacy.GoQuote (Legacy.GetSubscriptionID rule) ]).
Proof.
  intros Hpager Hall Hsome Hwf Hres.
  destruct (legacy_scanned _ _ _ _ Hpager Hall Hsome Hres) as [-> ->].
  rewrite (scan_wellFormed _ _ Hwf).
  case_bool_decide; [rewrite decide_True by done|rewrite decide_False by done];
    done.
Qed.

(** *** Roles that do not resolve *)

(** X15.  In the earlier validator a role that cannot be resolved is a
    Failed result, not an error: with grants at hand, a friendly name that
    the lookup table does not hold gives the message "Role name specified
    does not exist. Cannot validate." and the quoted name as the only
    detail, and a role with neither field gives "Neither role name nor name
    specified. Cannot validate." with no details and, the lookup table not
    being requested, the identifier "invalid-config".  The error is nil and
    the grants are not scanned, so malformed grants go unnoticed. *)
Theorem earlier_validator_fails_an_unresolvable_role s (rule : R) pager :
  Legacy.NewListForSubscriptionPager (Legacy.api s)
    (principalFilter (Legacy.GetServicePrincipalID rule)) = pager →
  Forall (λ page, ∃ value, page = inr value) pager →
  concat (pageValue <$> pager) ≠ [] →
  Name (Legacy.GetRole rule) = None →
  match RoleName (Legacy.GetRole rule) with
  | Some friendly =>
      ∃ table,
        Legacy.BuiltInRoleLookupMap (Legacy.GetSubscriptionID rule)
        = inr table
        ∧ table !! friendly = None
  | None => True
  end →
  Legacy.ReconcileRoleAssignmentRule s rule
  = mkReturned
      (CallNewListForSubscriptionPager
         (principalFilter (Legacy.GetServicePrincipalID rule))
       :: replicate (length pager) CallNextPage
       ++ (if needsLookup (Legacy.GetRole rule) then
             [CallBuiltInRoleLookupMap (Legacy.GetSubscriptionID rule)]
           else []))
      (Some
         (Legacy.failValidationResult
            (Legacy.buildValidationResult rule ValidationTypeRoleAssignment)
            rule ValidationTypeRoleAssignment
            (match RoleName (Legacy.GetRole rule) with
             | Some _ =>
                 "Role name specified does not exist. Cannot validate."
             | None =>
                 "Neither role name nor name specified. Cannot validate."
             end)
            (match RoleName (Legacy.GetRole rule) with
             | Some friendly =>
                 ["provided role name: " +:+ Legacy.GoQuote friendly]
             | None => []
             end)))
      None
  ∧ (RoleName (Legacy.GetRole rule) = None →
     Legacy.identifier rule = "invalid-config").
Proof.
  intros Hpager Hall Hsome Hname Hrole.
  split; [|by unfold Legacy.identifier; intros ->; rewrite Hname].
  unfold Legacy.ReconcileRoleAssignmentRule, needsLookup,
    Legacy.failValidationResult, Legacy.identifier.
  rewrite legacy_filter, Hpager, (drainPager_all _ _ Hall).
  cbn [app]. rewrite bind_value.
  rewrite decide_False by (by destruct (concat _)).
  rewrite Hname.
  destruct (RoleName (Legacy.GetRole rule)) as [friendly|].
  - destruct Hrole as (table & -> & Hk).
    rewrite bind_ret_l, Hk. reflexivity.
  - cbn. by rewrite app_nil_r.
Qed.

(** X16.  When the lookup table cannot be obtained, the earlier validator
    returns a nil result and the table's error wrapped with "failed to get
    role lookup map"; this happens only for a role with a friendly name and
    no canonical id, after all pages were read and some grant was found. *)
Theorem earlier_lookup_failure_is_a_wrapped_error
    s (rule : R) pager friendly e :
  Legacy.NewListForSubscriptionPager (Legacy.api s)
    (principalFilter (Legacy.GetServicePrincipalID rule)) = pager →
  Forall (λ page, ∃ value, page = inr value) pager →
  concat (pageValue <$> pager) ≠ [] →
  Name (Legacy.GetRole rule) = None →
  RoleName (Legacy.GetRole rule) = Some friendly →
  Legacy.BuiltInRoleLookupMap (Legacy.GetSubscriptionID rule) = inl e →
  Legacy.ReconcileRoleAssignmentRule s rule
  = mkReturned
      (CallNewListForSubscriptionPager
         (principalFilter (Legacy.GetServicePrincipalID rule))
       :: replicate (length pager) CallNextPage
       ++ [CallBuiltInRoleLookupMap (Legacy.GetSubscriptionID rule)])
      None
      (Some (errWrap "failed to get role lookup map" e)).
Proof.
  intros Hpager Hall Hsome Hname Hrole Hlookup.
  unfold Legacy.ReconcileRoleAssignmentRule.
  rewrite legacy_filter, Hpager, (drainPager_all _ _ Hall).
  cbn [app]. rewrite bind_value.
  rewrite decide_False by (by destruct (concat _)).
  rewrite Hname, Hrole, Hlookup. reflexivity.
Qed.

(** *** What every result of the earlier validator looks like *)

(** X17.  Whatever the pager and the lookup table answer, a result returned
    by the earlier validator comes with a nil error, has an empty failures
    list (its reasons go to the details), and is Failed exactly when its
    condition is false; and when no result is returned the error is not
    nil. *)
Theorem earlier_validator_never_lists_failures s (rule : R) :
  match result (Legacy.ReconcileRoleAssignmentRule s rule) with
  | Some vr =>
      err (Legacy.ReconcileRoleAssignmentRule s rule) = None
      ∧ Failures (Condition vr) = []
      ∧ (State vr = ValidationFailed ↔ Status (Condition vr) = ConditionFalse)
  | None => err (Legacy.ReconcileRoleAssignmentRule s rule) ≠ None
  end.
Proof.
  unfold Legacy.ReconcileRoleAssignmentRule.
  destruct (Legacy.drainPager _ []) as [t [e|grants]]; [done|].
  rewrite bind_value.
  destruct (decide (length grants = 0)); [cbn; by intuition|].
  destruct (Name (Legacy.GetRole rule)) as [given|].
  { rewrite bind_ret_l.
    destruct (Legacy.scanRoleAssignments grants given) as [e|[|]];
      cbn; by intuition. }
  destruct (RoleName (Legacy.GetRole rule)) as [friendly|];
    [|cbn; by intuition].
  destruct (Legacy.BuiltInRoleLookupMap _) as [e|table]; [done|].
  rewrite bind_ret_l.
  destruct (table !! friendly) as [canonical|]; [|cbn; by intuition].
  unfold emit, mret, Eff_ret, mbind, Eff_bind. cbn [trace outcome app].
  destruct (Legacy.scanRoleAssignments grants canonical) as [e|[|]];
    cbn; by intuition.
Qed.

(** *** The two versions of the single-rule validator *)

(** What the earlier validator returns when the pages hold no grant. *)
Lemma legacy_none_found s (rule : R) pager :
  Legacy.NewListForSubscriptionPager (Legacy.api s)
    (principalFilter (Legacy.GetServicePrincipalID rule)) = pager →
  Forall (λ page, ∃ value, page = inr value) pager →
  concat (pageValue <$> pager) = [] →
  err (Legacy.ReconcileRoleAssignmentRule s rule) = None
  ∧ State <$> result (Legacy.ReconcileRoleAssignmentRule s rule)
    = Some ValidationFailed.
Proof.
  intros Hpager Hall Hnone. unfold Legacy.ReconcileRoleAssignmentRule.
  rewrite legacy_filter, Hpager, (drainPager_all _ _ Hall), Hnone.
  cbn [app]. rewrite bind_value. cbn [length].
  by rewrite decide_True by done.
Qed.

(** X18.  The earlier validator and the current one agree on the verdict
    for a rule with one role: when both are given the same grants, all well
    formed, and the role resolves to the same name for both, neither
    returns an error and the two results have the same State (Succeeded
    when the name is in the grant set, Failed otherwise; with no grants at
    all both are Failed). *)
Theorem both_versions_agree_on_the_state s_old s (rule : R) pager name :
  Legacy.NewListForSubscriptionPager (Legacy.api s_old)
    (principalFilter (Legacy.GetServicePrincipalID rule)) = pager →
  Forall (λ page, ∃ value, page = inr value) pager →
  ListRoleAssignmentsForSubscription (ra_api s)
    (Legacy.GetSubscriptionID rule)
    (principalFilter (Legacy.GetServicePrincipalID rule))
  = inr (concat (pageValue <$> pager)) →
  Forall (λ ra, wellFormed ra = true) (concat (pageValue <$> pager)) →
  specResolve Legacy.BuiltInRoleLookupMap (Legacy.GetSubscriptionID rule)
    (Legacy.GetRole rule) = inr name →
  specResolve (ra_getRoleLookupMap s) (Legacy.GetSubscriptionID rule)
    (Legacy.GetRole rule) = inr name →
  let old := Legacy.ReconcileRoleAssignmentRule s_old rule in
  let new :=
    ReconcileRoleAssignmentRule s
      (mkRoleAssignmentRule [Legacy.GetRole rule]
         (Legacy.GetServicePrincipalID rule)
         (Legacy.GetSubscriptionID rule)) in
  err old = None ∧ err new = None
  ∧ State <$> result old = Some (State (result new))
  ∧ (State (result new) = ValidationSucceeded
     ↔ name ∈ grantSet (concat (pageValue <$> pager))).
Proof.
  intros Hpager Hall Hfetch Hwf Hres Hres' old new. subst old new.
  rewrite (reconcileRA_fetched s
             (mkRoleAssignmentRule [Legacy.GetRole rule]
                (Legacy.GetServicePrincipalID rule)
                (Legacy.GetSubscriptionID rule)) _ Hfetch).
  cbv zeta.
  cbn [Roles SubscriptionID ServicePrincipalID].
  rewrite reconcileRoles_step_outcome. cbn [SubscriptionID]. rewrite Hres'.
  cbn [reconcileRoles mret Eff_ret outcome app].
  unfold missingRole.
  destruct (decide (concat (pageValue <$> pager) = [])) as [Hnone|Hsome].
  - destruct (legacy_none_found _ _ _ Hpager Hall Hnone) as [He Hs].
    rewrite He, Hs, Hnone.
    cbn [err result].
    assert (name ∉ grantSet []) as Hout.
    { unfold grantSet. rewrite elem_of_list_to_set. apply not_elem_of_nil. }
    rewrite (decide_False (P := name ∈ _)) by done.
    rewrite decide_True by (cbn; lia). cbn.
    repeat split; done.
  - destruct (legacy_scanned _ _ _ _ Hpager Hall Hsome Hres) as [Hr He].
    rewrite Hr, He, (scan_wellFormed _ _ Hwf).
    case_bool_decide as Hin.
    + rewrite (decide_True (P := name ∈ _)) by done.
      rewrite decide_False by (cbn; lia). by cbn.
    + rewrite (decide_False (P := name ∈ _)) by done.
      rewrite decide_True by (cbn; lia). cbn.
      repeat split; done.
Qed.

End LegacyCoverage.

(** ** The properties on concrete runs *)

Import Fixtures.

(** C1 fails as stated: a fetched sequence that holds two malformed grants
    (one without properties, one without a role-definition id) besides the
    grants for A and C does not make either validator return an error; the
    malformed grants are passed over and the rule is found satisfied. *)
Lemma malformed_grant_is_not_an_error :
  wellFormed grantNoProperties = false
  ∧ wellFormed grantNoRoleDefinitionID = false
  ∧ ListRoleAssignmentsForSubscription (ra_api serviceAC) "s1"
      (principalFilter "p1") = inr grantsAC
  ∧ ReconcileRoleAssignmentRule serviceAC ruleAC
    = mkReturned
        [CallListRoleAssignmentsForSubscription "s1" "principalId eq 'p1'"]
        (roleAssignmentSucceeded ruleAC) None
  ∧ processPermissionSet scopedAC setA "p1" []
    = mkEff
        [CallListRoleAssignmentsForScope "/subscriptions/s1"
           "principalId eq 'p1'"]
        (inr [])
  ∧ err (ReconcileRBACRule scopedAC (multi [setA])) = None
  ∧ State (result (ReconcileRBACRule scopedAC (multi [setA])))
    = ValidationSucceeded.
Proof. vm_compute. repeat split. Qed.

(** C2 on a run: desired roles A, B, C against grants for A and C. *)
Lemma single_rule_reports_absent_roles_witness :
  (ListRoleAssignmentsForSubscription (ra_api serviceAC)
     (SubscriptionID ruleABC)
     (principalFilter (ServicePrincipalID ruleABC)) = inr grantsAC
   ∧ Forall2
       (λ role id,
          specResolve (ra_getRoleLookupMap serviceAC)
            (SubscriptionID ruleABC) role = inr id)
       (Roles ruleABC) ["A"; "B"; "C"])
  ∧ err (ReconcileRoleAssignmentRule serviceAC ruleABC) = None
  ∧ Failures (Condition (result (ReconcileRoleAssignmentRule serviceAC
                                   ruleABC)))
    = ["Service principal missing role B"]
  ∧ State (result (ReconcileRoleAssignmentRule serviceAC ruleABC))
    = ValidationFailed.
Proof.
  assert (ListRoleAssignmentsForSubscription (ra_api serviceAC)
            (SubscriptionID ruleABC)
            (principalFilter (ServicePrincipalID ruleABC))
          = inr grantsAC) as Hfetch by reflexivity.
  assert (Forall2
            (λ role id,
               specResolve (ra_getRoleLookupMap serviceAC)
                 (SubscriptionID ruleABC) role = inr id)
            (Roles ruleABC) ["A"; "B"; "C"]) as Hall
    by (repeat constructor).
  split; [by split|].
  destruct (single_rule_reports_absent_roles serviceAC ruleABC grantsAC
              ["A"; "B"; "C"] Hfetch Hall) as (Herr & Hfail & _ & Hstate).
  split; [exact Herr|]. split.
  - etrans; [exact Hfail|]. vm_compute. reflexivity.
  - apply Hstate. vm_compute. discriminate.
Defined.

(** C3 on a run: a role that gives both the id A and the friendly name
    Contributor, with a lookup provider that is down.  The single-scope
    rule asks for that role and for B: A is found under its own name, B is
    missing, and the provider is not called. *)
Lemma canonical_id_takes_precedence_witness :
  (Forall2 (λ role id, Name role = Some id)
     (Roles (mkRoleAssignmentRule [bothFields; byName "B"] "p1" "s1"))
     ["A"; "B"]
   ∧ Name bothFields = Some "A"
   ∧ RoleName bothFields = Some "Contributor"
   ∧ SetRole setBoth = bothFields
   ∧ ListRoleAssignmentsForScope (rbac_api scopedDown) (Scope setBoth)
       (principalFilter "p1") = inr grantsAC)
  ∧ ReconcileRoleAssignmentRule
      (NewRoleAssignmentRuleService (subscriptionAPI grantsAC) lookupDown)
      (mkRoleAssignmentRule [bothFields; byName "B"] "p1" "s1")
    = mkReturned
        [CallListRoleAssignmentsForSubscription "s1" "principalId eq 'p1'"]
        (markFailed
           (roleAssignmentSucceeded
              (mkRoleAssignmentRule [bothFields; byName "B"] "p1" "s1"))
           "Service principal missing one or more required roles."
           ["Service principal missing role B"])
        None
  ∧ processPermissionSet scopedDown setBoth "p1" []
    = mkEff
        [CallListRoleAssignmentsForScope resourceGroup "principalId eq 'p1'"]
        (inr []).
Proof.
  assert (Forall2 (λ role id, Name role = Some id)
            (Roles (mkRoleAssignmentRule [bothFields; byName "B"] "p1" "s1"))
            ["A"; "B"]) as Hall
    by (repeat constructor).
  split; [repeat split; exact Hall|].
  destruct (canonical_id_takes_precedence
              (NewRoleAssignmentRuleService (subscriptionAPI grantsAC)
                 lookupDown)
              (mkRoleAssignmentRule [bothFields; byName "B"] "p1" "s1")
              grantsAC ["A"; "B"] ∅ bothFields [] [] scopedDown setBoth
              "p1" grantsAC "A" eq_refl Hall eq_refl eq_refl eq_refl)
    as (Hsingle & _ & Hset).
  split.
  - etrans; [exact Hsingle|]. vm_compute. reflexivity.
  - etrans; [exact Hset|]. vm_compute. reflexivity.
Defined.

(** C4 fails for the earlier validator: a friendly name that is not in the
    lookup table, and a role with neither field, both come back as a Failed
    result with a nil error, the reason being put in the message. *)
Lemma legacy_resolution_failure_is_not_an_error :
  err (Legacy.ReconcileRoleAssignmentRule (legacyService onePage)
         (legacyRule (byRoleName "NoSuchRole"))) = None
  ∧ (State <$> result (Legacy.ReconcileRoleAssignmentRule
                         (legacyService onePage)
                         (legacyRule (byRoleName "NoSuchRole"))))
    = Some ValidationFailed
  ∧ ((λ r, Message (Condition r))
       <$> result (Legacy.ReconcileRoleAssignmentRule (legacyService onePage)
                     (legacyRule (byRoleName "NoSuchRole"))))
    = Some "Role name specified does not exist. Cannot validate."
  ∧ err (Legacy.ReconcileRoleAssignmentRule (legacyService onePage)
           (legacyRule unspecified)) = None
  ∧ (State <$> result (Legacy.ReconcileRoleAssignmentRule
                         (legacyService onePage) (legacyRule unspecified)))
    = Some ValidationFailed
  ∧ ((λ r, Message (Condition r))
       <$> result (Legacy.ReconcileRoleAssignmentRule (legacyService onePage)
                     (legacyRule unspecified)))
    = Some "Neither role name nor name specified. Cannot validate.".
Proof. vm_compute. repeat split. Qed.

(** C4 on a run of the current validators: a single-scope rule whose second
    role is an unknown friendly name, and a multi-scope rule whose second
    set has a role with neither field. *)
Lemma unresolvable_role_is_an_error_witness :
  (byRoleName "NoSuchRole" ∈ Roles ruleUnknown
   ∧ specResolve (ra_getRoleLookupMap serviceAC) (SubscriptionID ruleUnknown)
       (byRoleName "NoSuchRole") = inl errNoSuchBuiltInRole
   ∧ setUnspecified ∈ Permissions (multi [setB; setUnspecified])
   ∧ specResolveSet (rbac_getRoleLookupMap scopedAC) setUnspecified
     = inl errNoRoleIdentifierSpecified)
  ∧ (∃ e, err (ReconcileRoleAssignmentRule serviceAC ruleUnknown) = Some e)
  ∧ Failures (Condition (result (ReconcileRoleAssignmentRule serviceAC
                                   ruleUnknown))) = []
  ∧ (∃ e, err (ReconcileRBACRule scopedAC (multi [setB; setUnspecified]))
          = Some e)
  ∧ Failures (Condition (result (ReconcileRBACRule scopedAC
                                   (multi [setB; setUnspecified])))) = [].
Proof.
  assert (byRoleName "NoSuchRole" ∈ Roles ruleUnknown) as Hin
    by (cbn; repeat constructor).
  assert (setUnspecified ∈ Permissions (multi [setB; setUnspecified]))
    as Hin2 by (cbn; repeat constructor).
  split; [repeat split; assumption|].
  destruct (unresolvable_role_is_an_error serviceAC ruleUnknown
              (byRoleName "NoSuchRole") errNoSuchBuiltInRole scopedAC
              (multi [setB; setUnspecified]) setUnspecified
              errNoRoleIdentifierSpecified ∅ [] [] grantsAC
              Hin eq_refl Hin2 eq_refl)
    as (Herr & _ & Hfail & Herr2 & _ & Hfail2 & _).
  repeat split; assumption.
Defined.

(** C5 fails for the earlier validator: with no grant fetched it returns a
    Failed result whose failures list is empty, and when the desired role is
    not among the grants it returns a Failed result that carries its reasons
    as details and still no failures. *)
Lemma legacy_failed_result_has_no_failures :
  err (Legacy.ReconcileRoleAssignmentRule (legacyService [])
         (legacyRule (byName "A"))) = None
  ∧ (State <$> result (Legacy.ReconcileRoleAssignmentRule (legacyService [])
                         (legacyRule (byName "A"))))
    = Some ValidationFailed
  ∧ ((λ r, Failures (Condition r))
       <$> result (Legacy.ReconcileRoleAssignmentRule (legacyService [])
                     (legacyRule (byName "A"))))
    = Some []
  ∧ err (Legacy.ReconcileRoleAssignmentRule (legacyService onePage)
           (legacyRule (byName "C"))) = None
  ∧ (State <$> result (Legacy.ReconcileRoleAssignmentRule
                         (legacyService onePage) (legacyRule (byName "C"))))
    = Some ValidationFailed
  ∧ ((λ r, Failures (Condition r))
       <$> result (Legacy.ReconcileRoleAssignmentRule (legacyService onePage)
                     (legacyRule (byName "C"))))
    = Some []
  ∧ ((λ r, Details (Condition r))
       <$> result (Legacy.ReconcileRoleAssignmentRule (legacyService onePage)
                     (legacyRule (byName "C"))))
    = Some ["specified role name of role? false";
            "specified name of role? true";
            "specified service principal ID = 'p1'";
            "specified subscription ID = 's1'"].
Proof. vm_compute. repeat split. Qed.

(** C6 fails as stated: the entry recorded for a permission set whose role
    is missing does not mention the set's scope; the same entry is recorded
    whatever the scope is. *)
Lemma failure_entry_does_not_name_the_scope :
  Scope setB = "/subscriptions/s1/resourceGroups/rg"
  ∧ Failures (Condition (result (ReconcileRBACRule scopedAC (multi [setB]))))
    = ["Security principal missing role B"]
  ∧ String.index 0 (Scope setB) "Security principal missing role B" = None
  ∧ Failures (Condition (result (ReconcileRBACRule scopedAC
       (multi [mkPermissionSet (byName "B") "/subscriptions/s2"]))))
    = ["Security principal missing role B"].
Proof. vm_compute. repeat split. Qed.

(** C6 on a run: the first set's role is granted, the second set's is not. *)
Lemma multi_scope_reports_absent_roles_witness :
  Forall2
    (λ set fetched,
       ListRoleAssignmentsForScope (rbac_api scopedAC) (Scope set)
         (principalFilter (SecurityPrincipalID
                             (multi [setA; setContributor])))
       = inr fetched.1
       ∧ specResolveSet (rbac_getRoleLookupMap scopedAC) set = inr fetched.2)
    (Permissions (multi [setA; setContributor]))
    [(grantsAC, "A"); (grantsAC, "role-def-123")]
  ∧ err (ReconcileRBACRule scopedAC (multi [setA; setContributor])) = None
  ∧ Failures (Condition (result (ReconcileRBACRule scopedAC
                                   (multi [setA; setContributor]))))
    = ["Security principal missing role role-def-123"].
Proof.
  assert (Forall2
    (λ set fetched,
       ListRoleAssignmentsForScope (rbac_api scopedAC) (Scope set)
         (principalFilter (SecurityPrincipalID
                             (multi [setA; setContributor])))
       = inr fetched.1
       ∧ specResolveSet (rbac_getRoleLookupMap scopedAC) set = inr fetched.2)
    (Permissions (multi [setA; setContributor]))
    [(grantsAC, "A"); (grantsAC, "role-def-123")]) as Hall
    by (repeat constructor).
  split; [exact Hall|].
  destruct (multi_scope_reports_absent_roles scopedAC
              (multi [setA; setContributor])
              [(grantsAC, "A"); (grantsAC, "role-def-123")] Hall)
    as (Herr & Hfail).
  split; [exact Herr|].
  etrans; [exact Hfail|]. vm_compute. reflexivity.
Defined.

(** C7 fails as stated: the scope of a set whose role carries a canonical
    id is not parsed, so a scope without a subscription segment is no error
    there, and the sets after it are processed. *)
Lemma unparsable_scope_is_not_always_an_error :
  RoleAssignmentScopeSubscription (Scope setABadScope) = inl errBadScope
  ∧ err (ReconcileRBACRule scopedAC (multi [setABadScope; setB])) = None
  ∧ Failures (Condition (result (ReconcileRBACRule scopedAC
                                   (multi [setABadScope; setB]))))
    = ["Security principal missing role B"]
  ∧ calls (ReconcileRBACRule scopedAC (multi [setABadScope; setB]))
    = [LogInfo "Processing permission set of rule." "set #" 1;
       CallListRoleAssignmentsForScope "not-a-scope" "principalId eq 'p1'";
       LogInfo "Processing permission set of rule." "set #" 2;
       CallListRoleAssignmentsForScope resourceGroup "principalId eq 'p1'"].
Proof. vm_compute. repeat split. Qed.

(** C7 on a run: the second of three sets gives a friendly name and a scope
    that does not parse; the first set had recorded a failure. *)
Lemma unparsable_scope_aborts_the_rule_witness :
  (Permissions (multi [setB; setContributorBadScope; setA])
   = [setB] ++ setContributorBadScope :: [setA]
   ∧ outcome (processPermissions scopedAC
                (SecurityPrincipalID
                   (multi [setB; setContributorBadScope; setA]))
                0 [setB] [])
     = inr ["Security principal missing role B"]
   ∧ Name (SetRole setContributorBadScope) = None
   ∧ RoleName (SetRole setContributorBadScope) = Some "Contributor"
   ∧ ListRoleAssignmentsForScope (rbac_api scopedAC)
       (Scope setContributorBadScope)
       (principalFilter (SecurityPrincipalID
                           (multi [setB; setContributorBadScope; setA])))
     = inr grantsAC
   ∧ RoleAssignmentScopeSubscription (Scope setContributorBadScope)
     = inl errBadScope)
  ∧ ReconcileRBACRule scopedAC (multi [setB; setContributorBadScope; setA])
    = mkReturned
        [LogInfo "Processing permission set of rule." "set #" 1;
         CallListRoleAssignmentsForScope resourceGroup "principalId eq 'p1'";
         LogInfo "Processing permission set of rule." "set #" 2;
         CallListRoleAssignmentsForScope "not-a-scope" "principalId eq 'p1'";
         LogError errBadScope
           "failed to parse subscription ID from scope string to perform role name lookup"]
        (rbacSucceeded (multi [setB; setContributorBadScope; setA]))
        (Some errBadScope).
Proof.
  split; [repeat split|].
  etrans.
  - apply (unparsable_scope_aborts_the_rule scopedAC
             (multi [setB; setContributorBadScope; setA])
             [setB] setContributorBadScope [setA]
             ["Security principal missing role B"] "Contributor" grantsAC
             errBadScope); reflexivity.
  - vm_compute. reflexivity.
Defined.

(** C8 fails as stated: the multi-scope validator labels its result with
    the principal identifier, not with the friendly name of the role. *)
Lemma multi_scope_identifier_is_the_principal :
  RoleName (SetRole setContributor) = Some "Contributor"
  ∧ SecurityPrincipalID (multi [setContributor]) = "p1"
  ∧ ValidationRule
      (Condition (result (ReconcileRBACRule scopedAC
                            (multi [setContributor]))))
    = "validation-p1"
  ∧ ValidationRule
      (Condition (result (ReconcileRBACRule scopedAC
                            (multi [setContributor]))))
    ≠ "validation-Contributor".
Proof. vm_compute. repeat split; discriminate. Qed.

(** C9 fails as stated: two calls on the same rule with the same
    collaborators, made at two readings of the clock, return results that
    differ (in their [LastValidationTime]). *)
Lemma two_calls_differ_in_the_time :
  result (@ReconcileRoleAssignmentRule (withClock 0) serviceAC ruleABC)
  ≠ result (@ReconcileRoleAssignmentRule (withClock 1) serviceAC ruleABC)
  ∧ result (@ReconcileRBACRule (withClock 0) scopedAC (multi [setReader]))
    ≠ result (@ReconcileRBACRule (withClock 1) scopedAC (multi [setReader])).
Proof. split; vm_compute; discriminate. Qed.

(** C9 on a run: two pairs of services that differ away from the rule (one
    knows every subscription or scope, the other only the rule's), called at
    the readings 3 and 7 of the clock. *)
Lemma results_agree_up_to_the_clock_witness :
  ListRoleAssignmentsForSubscription (ra_api serviceAC) "s2" ""
  ≠ ListRoleAssignmentsForSubscription (onlySubscription "s1" grantsAC)
      "s2" ""
  ∧ @ReconcileRoleAssignmentRule (withClock 7)
      (NewRoleAssignmentRuleService (onlySubscription "s1" grantsAC)
         lookupBuiltIn)
      ruleABC
    = mkReturned
        (calls (@ReconcileRoleAssignmentRule (withClock 3) serviceAC ruleABC))
        (atTime 7
           (result (@ReconcileRoleAssignmentRule (withClock 3) serviceAC
                      ruleABC)))
        (err (@ReconcileRoleAssignmentRule (withClock 3) serviceAC ruleABC))
  ∧ LastValidationTime
      (Condition (result (@ReconcileRoleAssignmentRule (withClock 3)
                            serviceAC ruleABC))) = 3%Z
  ∧ @ReconcileRBACRule (withClock 7)
      (NewRBACRuleService (onlyScope resourceGroup grantsAC) lookupBuiltIn)
      (multi [setReader])
    = mkReturned
        (calls (@ReconcileRBACRule (withClock 3) scopedAC (multi [setReader])))
        (atTime 7
           (result (@ReconcileRBACRule (withClock 3) scopedAC
                      (multi [setReader]))))
        (err (@ReconcileRBACRule (withClock 3) scopedAC (multi [setReader])))
  ∧ LastValidationTime
      (Condition (result (@ReconcileRBACRule (withClock 3) scopedAC
                            (multi [setReader])))) = 3%Z.
Proof.
  split; [vm_compute; discriminate|].
  destruct (results_agree_up_to_the_clock
              serviceAC
              (NewRoleAssignmentRuleService (onlySubscription "s1" grantsAC)
                 lookupBuiltIn)
              scopedAC
              (NewRBACRuleService (onlyScope resourceGroup grantsAC)
                 lookupBuiltIn)
              ruleABC (multi [setReader]) 3%Z 7%Z)
    as (Hsingle & Htime & Hmulti & Htime2 & _).
  - reflexivity.
  - reflexivity.
  - intros set Hin. cbn in Hin.
    apply list_elem_of_singleton in Hin as ->. reflexivity.
  - intros set sub Hin _. reflexivity.
  - repeat split; assumption.
Defined.

(** C10 on a run: the first set records a missing role, the second fails to
    resolve; the error comes back with the optimistic result. *)
Lemma error_leaves_result_optimistic_witness :
  outcome (processPermissionSet scopedAC setB "p1" [])
  = inr ["Security principal missing role B"]
  ∧ err (ReconcileRBACRule scopedAC (multi [setB; setUnspecified])) ≠ None
  ∧ State (result (ReconcileRBACRule scopedAC (multi [setB; setUnspecified])))
    = ValidationSucceeded
  ∧ Failures (Condition (result (ReconcileRBACRule scopedAC
                                   (multi [setB; setUnspecified]))))
    = [].
Proof.
  assert (err (ReconcileRBACRule scopedAC (multi [setB; setUnspecified]))
          ≠ None) as Herr
    by (vm_compute; discriminate).
  split; [vm_compute; reflexivity|]. split; [exact Herr|].
  destruct (error_leaves_result_optimistic serviceAC ruleABC scopedAC
              (multi [setB; setUnspecified]) _ (or_intror eq_refl) Herr)
    as (_ & Hstate & _ & Hfail & _).
  split; [exact Hstate | exact Hfail].
Defined.

(** ** Further properties on concrete runs *)

Import Examples.

(** X1 on a run: the grants for A and C in another order, A twice and no
    malformed grant, give the same returns. *)
Lemma only_the_grant_set_counts_witness :
  ListRoleAssignmentsForSubscription (ra_api serviceAC) "s1" ""
  ≠ ListRoleAssignmentsForSubscription (ra_api serviceCAA) "s1" ""
  ∧ ReconcileRoleAssignmentRule serviceAC ruleABC
    = ReconcileRoleAssignmentRule serviceCAA ruleABC
  ∧ ReconcileRBACRule scopedAC (multi [setReader; setA])
    = ReconcileRBACRule scopedCAA (multi [setReader; setA]).
Proof.
  split; [vm_compute; discriminate|].
  apply (only_the_grant_set_counts serviceAC serviceCAA scopedAC scopedCAA
           ruleABC (multi [setReader; setA])).
  - vm_compute. reflexivity.
  - reflexivity.
  - intros set _. vm_compute. reflexivity.
  - intros set sub _ _. reflexivity.
Defined.

(** X3 on a run: with the grant for A only, roles B and C are missing; with
    the grants for A and C, only B is. *)
Lemma more_grants_fewer_failures_witness :
  grantSet [grant (rid "A")] ⊆ grantSet grantsAC
  ∧ Failures (Condition (result (ReconcileRoleAssignmentRule serviceA
                                   ruleABC)))
    = ["Service principal missing role B";
       "Service principal missing role C"]
  ∧ sublist
      (Failures (Condition (result (ReconcileRoleAssignmentRule serviceAC
                                      ruleABC))))
      (Failures (Condition (result (ReconcileRoleAssignmentRule serviceA
                                      ruleABC)))).
Proof.
  assert (grantSet [grant (rid "A")] ⊆ grantSet grantsAC) as Hsub.
  { apply (bool_decide_unpack
             (grantSet [grant (rid "A")] ⊆ grantSet grantsAC)).
    vm_compute. exact I. }
  split; [exact Hsub|]. split; [vm_compute; reflexivity|].
  apply (more_grants_fewer_failures serviceA serviceAC ruleABC
           [grant (rid "A")] grantsAC eq_refl eq_refl Hsub eq_refl).
Defined.

(** X4 on a run: the second role is an unknown friendly name; the role after
    it plays no part. *)
Lemma first_unresolvable_role_decides_witness :
  (Roles ruleStops = [byName "B"] ++ byRoleName "NoSuchRole" :: [byName "A"]
   ∧ specResolve (ra_getRoleLookupMap serviceAC) (SubscriptionID ruleStops)
       (byRoleName "NoSuchRole") = inl errNoSuchBuiltInRole)
  ∧ err (ReconcileRoleAssignmentRule serviceAC ruleStops)
    = Some errNoSuchBuiltInRole
  ∧ result (ReconcileRoleAssignmentRule serviceAC ruleStops)
    = roleAssignmentSucceeded ruleStops
  ∧ ReconcileRoleAssignmentRule serviceAC ruleStops
    = ReconcileRoleAssignmentRule serviceAC
        (mkRoleAssignmentRule ([byName "B"] ++ [byRoleName "NoSuchRole"])
           (ServicePrincipalID ruleStops) (SubscriptionID ruleStops)).
Proof.
  split; [by split|].
  apply (first_unresolvable_role_decides serviceAC ruleStops grantsAC
           [byName "B"] (byRoleName "NoSuchRole") [byName "A"] ["B"]
           errNoSuchBuiltInRole).
  - reflexivity.
  - reflexivity.
  - repeat constructor.
  - reflexivity.
Defined.

(** X5 on a run: a facade that does not know the rule's subscription, and a
    facade that knows the resource group only, asked for the subscription
    scope by the second set. *)
Lemma fetch_failure_is_a_hard_error_witness :
  (ListRoleAssignmentsForSubscription (ra_api serviceElsewhere)
     (SubscriptionID ruleABC) (principalFilter (ServicePrincipalID ruleABC))
   = inl (errCollaborator "unknown subscription")
   ∧ outcome (processPermissions scopedGroupOnly "p1" 0 [setB] [])
     = inr ["Security principal missing role B"]
   ∧ ListRoleAssignmentsForScope (rbac_api scopedGroupOnly) (Scope setA)
       (principalFilter "p1")
     = inl (errCollaborator "unknown scope"))
  ∧ ReconcileRoleAssignmentRule serviceElsewhere ruleABC
    = mkReturned
        [CallListRoleAssignmentsForSubscription "s1" "principalId eq 'p1'";
         LogError (errCollaborator "unknown subscription")
           "failed to get role assignments"]
        (roleAssignmentSucceeded ruleABC)
        (Some (errCollaborator "unknown subscription"))
  ∧ ReconcileRBACRule scopedGroupOnly (multi [setB; setA; setReader])
    = mkReturned
        [LogInfo "Processing permission set of rule." "set #" 1;
         CallListRoleAssignmentsForScope resourceGroup "principalId eq 'p1'";
         LogInfo "Processing permission set of rule." "set #" 2;
         CallListRoleAssignmentsForScope "/subscriptions/s1"
           "principalId eq 'p1'"]
        (rbacSucceeded (multi [setB; setA; setReader]))
        (Some (errWrap "failed to get role assignments"
                 (errCollaborator "unknown scope"))).
Proof.
  assert (outcome (processPermissions scopedGroupOnly
                     (SecurityPrincipalID (multi [setB; setA; setReader]))
                     0 [setB] [])
          = inr ["Security principal missing role B"]) as Hpre
    by (vm_compute; reflexivity).
  split; [repeat split; exact Hpre|].
  destruct (fetch_failure_is_a_hard_error serviceElsewhere ruleABC
              (errCollaborator "unknown subscription") scopedGroupOnly
              (multi [setB; setA; setReader]) [setB] setA [setReader]
              ["Security principal missing role B"]
              (errCollaborator "unknown scope")
              eq_refl eq_refl Hpre eq_refl) as [Hsingle Hmulti].
  split.
  - etrans; [exact Hsingle|]. vm_compute. reflexivity.
  - etrans; [exact Hmulti|]. vm_compute. reflexivity.
Defined.

(** X6 on a run: four desired roles, two of which give a friendly name
    only; the table is requested twice. *)
Lemma lookup_table_is_requested_per_role_witness :
  (ListRoleAssignmentsForSubscription (ra_api serviceAC)
     (SubscriptionID ruleMixed) (principalFilter (ServicePrincipalID ruleMixed))
   = inr grantsAC
   ∧ Forall2
       (λ role id,
          specResolve (ra_getRoleLookupMap serviceAC)
            (SubscriptionID ruleMixed) role = inr id)
       (Roles ruleMixed) ["role-def-123"; "A"; "role-def-456"; "A"])
  ∧ calls (ReconcileRoleAssignmentRule serviceAC ruleMixed)
    = [CallListRoleAssignmentsForSubscription "s1" "principalId eq 'p1'";
       CallGetRoleLookupMap "s1"; CallGetRoleLookupMap "s1"].
Proof.
  assert (Forall2
            (λ role id,
               specResolve (ra_getRoleLookupMap serviceAC)
                 (SubscriptionID ruleMixed) role = inr id)
            (Roles ruleMixed) ["role-def-123"; "A"; "role-def-456"; "A"])
    as Hall by (repeat constructor).
  split; [by split|].
  etrans.
  - exact (lookup_table_is_requested_per_role serviceAC ruleMixed grantsAC
             ["role-def-123"; "A"; "role-def-456"; "A"] eq_refl Hall).
  - vm_compute. reflexivity.
Defined.

(** X7 on a run: three sets, the second with a friendly name only. *)
Lemma multi_scope_calls_set_by_set_witness :
  Forall2
    (λ set fetched,
       ListRoleAssignmentsForScope (rbac_api scopedAC) (Scope set)
         (principalFilter
            (SecurityPrincipalID (multi [setA; setContributor; setB])))
       = inr fetched.1
       ∧ specResolveSet (rbac_getRoleLookupMap scopedAC) set = inr fetched.2)
    (Permissions (multi [setA; setContributor; setB]))
    [(grantsAC, "A"); (grantsAC, "role-def-123"); (grantsAC, "B")]
  ∧ calls (ReconcileRBACRule scopedAC (multi [setA; setContributor; setB]))
    = [LogInfo "Processing permission set of rule." "set #" 1;
       CallListRoleAssignmentsForScope "/subscriptions/s1"
         "principalId eq 'p1'";
       LogInfo "Processing permission set of rule." "set #" 2;
       CallListRoleAssignmentsForScope resourceGroup "principalId eq 'p1'";
       CallGetRoleLookupMap "s1";
       LogInfo "Processing permission set of rule." "set #" 3;
       CallListRoleAssignmentsForScope resourceGroup "principalId eq 'p1'"].
Proof.
  assert (Forall2
            (λ set fetched,
               ListRoleAssignmentsForScope (rbac_api scopedAC) (Scope set)
                 (principalFilter
                    (SecurityPrincipalID
                       (multi [setA; setContributor; setB])))
               = inr fetched.1
               ∧ specResolveSet (rbac_getRoleLookupMap scopedAC) set
                 = inr fetched.2)
            (Permissions (multi [setA; setContributor; setB]))
            [(grantsAC, "A"); (grantsAC, "role-def-123"); (grantsAC, "B")])
    as Hall by (repeat constructor).
  split; [exact Hall|].
  etrans.
  - exact (multi_scope_calls_set_by_set scopedAC
             (multi [setA; setContributor; setB]) _ Hall).
  - vm_compute. reflexivity.
Defined.

(** X9 on a run: the second of three pages fails; the grant for A on the
    first page does not help. *)
Lemma failed_page_ends_the_call_witness :
  (Legacy.NewListForSubscriptionPager (Legacy.api (legacyService failingPager))
     (principalFilter (Legacy.GetServicePrincipalID (legacyRule (byName "A"))))
   = [inr (Some [grant (rid "A")])] ++ inl errThrottled
       :: [inr (Some [grant (rid "C")])])
  ∧ Legacy.ReconcileRoleAssignmentRule (legacyService failingPager)
      (legacyRule (byName "A"))
    = mkReturned
        [CallNewListForSubscriptionPager "principalId eq 'p1'";
         CallNextPage; CallNextPage]
        None
        (Some (errWrap
                 "failed to retrieve next page of role assignment results from pager"
                 errThrottled)).
Proof.
  split; [reflexivity|].
  etrans.
  - apply (failed_page_ends_the_call (legacyService failingPager)
             (legacyRule (byName "A")) [inr (Some [grant (rid "A")])]
             errThrottled [inr (Some [grant (rid "C")])]).
    + reflexivity.
    + repeat constructor. by eexists.
  - vm_compute. reflexivity.
Defined.

(** X10 on a run: two pages without a grant and a role with neither field;
    the result is Failed with the default's empty identifier. *)
Lemma no_grants_is_a_failed_result_witness :
  concat (pageValue <$> emptyPager) = []
  ∧ err (Legacy.ReconcileRoleAssignmentRule (legacyService emptyPager)
           (legacyRule unspecified)) = None
  ∧ ((λ r, (State r, Message (Condition r), ValidationRule (Condition r)))
       <$> result (Legacy.ReconcileRoleAssignmentRule
                     (legacyService emptyPager) (legacyRule unspecified)))
    = Some (ValidationFailed, "No role assignments found.", "")
  ∧ calls (Legacy.ReconcileRoleAssignmentRule (legacyService emptyPager)
             (legacyRule unspecified))
    = [CallNewListForSubscriptionPager "principalId eq 'p1'";
       CallNextPage; CallNextPage].
Proof.
  split; [reflexivity|].
  rewrite (no_grants_is_a_failed_result (legacyService emptyPager)
             (legacyRule unspecified) emptyPager eq_refl).
  - vm_compute. repeat split.
  - repeat constructor; by eexists.
  - reflexivity.
Defined.

(** X11 on a run: the grants for A and C over three pages, and in one. *)
Lemma paging_does_not_matter_witness :
  concat (pageValue <$> threePages) = [grant (rid "A"); grant (rid "C")]
  ∧ result (Legacy.ReconcileRoleAssignmentRule (legacyService threePages)
              (legacyRule (byName "C")))
    = result (Legacy.ReconcileRoleAssignmentRule
                (legacyService [inr (Some [grant (rid "A"); grant (rid "C")])])
                (legacyRule (byName "C")))
  ∧ err (Legacy.ReconcileRoleAssignmentRule (legacyService threePages)
           (legacyRule (byName "C")))
    = err (Legacy.ReconcileRoleAssignmentRule
             (legacyService [inr (Some [grant (rid "A"); grant (rid "C")])])
             (legacyRule (byName "C"))).
Proof.
  split; [reflexivity|].
  apply (paging_does_not_matter (legacyService threePages)
           (legacyService [inr (Some [grant (rid "A"); grant (rid "C")])])
           (legacyRule (byName "C")) threePages).
  - reflexivity.
  - repeat constructor; by eexists.
  - reflexivity.
Defined.

(** X12 on a run: the grant for A comes second, a grant without properties
    on the next page. *)
Lemma first_matching_grant_decides_witness :
  (concat (pageValue <$> matchThenMalformed)
   = [grant (rid "C")] ++ grant (rid "A") :: [grantNoProperties]
   ∧ grantRole (grant (rid "A")) = Some "A"
   ∧ wellFormed grantNoProperties = false)
  ∧ (State <$> result (Legacy.ReconcileRoleAssignmentRule
                         (legacyService matchThenMalformed)
                         (legacyRule (byName "A"))))
    = Some ValidationSucceeded
  ∧ err (Legacy.ReconcileRoleAssignmentRule
           (legacyService matchThenMalformed) (legacyRule (byName "A")))
    = None.
Proof.
  split; [repeat split|].
  destruct (first_matching_grant_decides (legacyService matchThenMalformed)
              (legacyRule (byName "A")) matchThenMalformed "A"
              [grant (rid "C")] (grant (rid "A")) [grantNoProperties])
    as [Hresult Herr].
  - reflexivity.
  - repeat constructor; by eexists.
  - reflexivity.
  - repeat constructor. exists "C". split; [reflexivity|discriminate].
  - reflexivity.
  - reflexivity.
  - split; [|exact Herr]. by rewrite Hresult.
Defined.

(** X13 on a run: a grant without a role-definition id comes before the
    grant for A. *)
Lemma malformed_grant_before_a_match_is_an_error_witness :
  (concat (pageValue <$> malformedThenMatch)
   = [grant (rid "C")] ++ grantNoRoleDefinitionID :: [grant (rid "A")]
   ∧ wellFormed grantNoRoleDefinitionID = false)
  ∧ result (Legacy.ReconcileRoleAssignmentRule
              (legacyService malformedThenMatch) (legacyRule (byName "A")))
    = None
  ∧ err (Legacy.ReconcileRoleAssignmentRule
           (legacyService malformedThenMatch) (legacyRule (byName "A")))
    = Some errMalformedResponse.
Proof.
  split; [repeat split|].
  apply (malformed_grant_before_a_match_is_an_error
           (legacyService malformedThenMatch) (legacyRule (byName "A"))
           malformedThenMatch "A" [grant (rid "C")] grantNoRoleDefinitionID
           [grant (rid "A")]).
  - reflexivity.
  - repeat constructor; by eexists.
  - reflexivity.
  - repeat constructor. exists "C". split; [reflexivity|discriminate].
  - reflexivity.
  - reflexivity.
Defined.

(** X14 on a run: the grants for A and C, and the friendly name Contributor,
    which resolves to a role that is not granted. *)
Lemma earlier_validator_checks_membership_witness :
  (specResolve Legacy.BuiltInRoleLookupMap
     (Legacy.GetSubscriptionID (legacyRule (byRoleName "Contributor")))
     (Legacy.GetRole (legacyRule (byRoleName "Contributor")))
   = inr "role-def-123"
   ∧ Forall (λ ra, wellFormed ra = true) (concat (pageValue <$> threePages)))
  ∧ err (Legacy.ReconcileRoleAssignmentRule (legacyService threePages)
           (legacyRule (byRoleName "Contributor"))) = None
  ∧ ((λ r, (State r, Message (Condition r), Details (Condition r)))
       <$> result (Legacy.ReconcileRoleAssignmentRule
                     (legacyService threePages)
                     (legacyRule (byRoleName "Contributor"))))
    = Some (ValidationFailed, "Desired role assignment not found.",
            ["specified role name of role? true";
             "specified name of role? false";
             "specified service principal ID = 'p1'";
             "specified subscription ID = 's1'"]).
Proof.
  assert (Forall (λ ra, wellFormed ra = true)
            (concat (pageValue <$> threePages))) as Hwf
    by (repeat constructor).
  split; [by split|].
  destruct (earlier_validator_checks_membership (legacyService threePages)
              (legacyRule (byRoleName "Contributor")) threePages
              "role-def-123")
    as [Herr Hresult].
  - reflexivity.
  - repeat constructor; by eexists.
  - discriminate.
  - exact Hwf.
  - reflexivity.
  - split; [exact Herr|]. rewrite Hresult. vm_compute. reflexivity.
Defined.

(** X15 on a run: an unknown friendly name, with a malformed grant as the
    only grant; the result is Failed, the error nil. *)
Lemma earlier_validator_fails_an_unresolvable_role_witness :
  (concat (pageValue <$> malformedOnly) = [grantNoProperties]
   ∧ builtIn !! "NoSuchRole" = None)
  ∧ err (Legacy.ReconcileRoleAssignmentRule (legacyService malformedOnly)
           (legacyRule (byRoleName "NoSuchRole"))) = None
  ∧ ((λ r, (State r, Message (Condition r), Details (Condition r)))
       <$> result (Legacy.ReconcileRoleAssignmentRule
                     (legacyService malformedOnly)
                     (legacyRule (byRoleName "NoSuchRole"))))
    = Some (ValidationFailed,
            "Role name specified does not exist. Cannot validate.",
            ["provided role name: 'NoSuchRole'"])
  ∧ calls (Legacy.ReconcileRoleAssignmentRule (legacyService malformedOnly)
             (legacyRule (byRoleName "NoSuchRole")))
    = [CallNewListForSubscriptionPager "principalId eq 'p1'";
       CallNextPage; CallBuiltInRoleLookupMap "s1"].
Proof.
  assert (builtIn !! "NoSuchRole" = None) as Hk by (vm_compute; reflexivity).
  split; [by split|].
  destruct (earlier_validator_fails_an_unresolvable_role
              (legacyService malformedOnly)
              (legacyRule (byRoleName "NoSuchRole")) malformedOnly)
    as [Hreturned _].
  - reflexivity.
  - repeat constructor; by eexists.
  - discriminate.
  - reflexivity.
  - exists builtIn. split; [reflexivity|exact Hk].
  - rewrite Hreturned. vm_compute. repeat split.
Defined.

(** X16 on a run: the lookup table is down and the role gives a friendly
    name only. *)
Lemma earlier_lookup_failure_is_a_wrapped_error_witness :
  @Legacy.BuiltInRoleLookupMap legacyDown "s1"
  = inl (errCollaborator "lookup down")
  ∧ @Legacy.ReconcileRoleAssignmentRule externals legacyDown
      Legacy.ruleData Legacy.ruleData_rule
      (legacyService onePage) (legacyRule (byRoleName "Contributor"))
    = mkReturned
        [CallNewListForSubscriptionPager "principalId eq 'p1'";
         CallNextPage; CallBuiltInRoleLookupMap "s1"]
        None
        (Some (errWrap "failed to get role lookup map"
                 (errCollaborator "lookup down"))).
Proof.
  split; [reflexivity|].
  etrans.
  - apply (@earlier_lookup_failure_is_a_wrapped_error externals legacyDown
             Legacy.ruleData Legacy.ruleData_rule
             (legacyService onePage) (legacyRule (byRoleName "Contributor"))
             onePage "Contributor" (errCollaborator "lookup down")).
    + reflexivity.
    + repeat constructor; by eexists.
    + discriminate.
    + reflexivity.
    + reflexivity.
    + reflexivity.
  - vm_compute. reflexivity.
Defined.

(** X18 on a run: the grants for A and C, over three pages for the earlier
    validator and in one answer for the current one; role C is granted,
    Contributor is not. *)
Lemma both_versions_agree_on_the_state_witness :
  (State <$> result (Legacy.ReconcileRoleAssignmentRule
                       (legacyService threePages) (legacyRule (byName "C"))))
  = Some ValidationSucceeded
  ∧ State (result (ReconcileRoleAssignmentRule
                     (NewRoleAssignmentRuleService
                        (subscriptionAPI (concat (pageValue <$> threePages)))
                        lookupBuiltIn)
                     (mkRoleAssignmentRule [byName "C"] "p1" "s1")))
    = ValidationSucceeded.
Proof.
  destruct (both_versions_agree_on_the_state (legacyService threePages)
              (NewRoleAssignmentRuleService
                 (subscriptionAPI (concat (pageValue <$> threePages)))
                 lookupBuiltIn)
              (legacyRule (byName "C")) threePages "C")
    as (_ & _ & Hsame & Hstate).
  - reflexivity.
  - repeat constructor; by eexists.
  - reflexivity.
  - repeat constructor.
  - reflexivity.
  - reflexivity.
  - assert ("C" ∈ grantSet (concat (pageValue <$> threePages))) as Hin.
    { apply (bool_decide_unpack
               ("C" ∈ grantSet (concat (pageValue <$> threePages)))).
      vm_compute. exact I. }
    apply Hstate in Hin. split; [|exact Hin].
    etrans; [exact Hsame|]. by rewrite Hin.
Defined.
